(** * Langflow service: retry primitive, flow listing and flow execution

  A shallow embedding of [backend/services/langflow_service.py].

  - Python [str] values are Rocq strings; every character is read as a
    code point below 256.
  - Python [int] values are [Z].
  - Parsed JSON values, keyword arguments and [dict]s are values of [Json];
    a [dict] is an association list in insertion order.
  - The remote platform, the clock and the HTTP client are a [State] that is
    threaded through every operation; a Python exception is the left
    injection of the result.
  - [logger] calls only write to the log and are left out. *)

From Stdlib Require Import ZArith String Ascii List Bool Lia.
From Stdlib Require Import Numbers.DecimalString.
Import ListNotations.

Open Scope string_scope.
Open Scope Z_scope.

(** ** Python built-ins on strings *)

Module Py.

(** [str(n)] for an [int]. *)
Definition str_int (n : Z) : string := NilZero.string_of_int (Z.to_int n).

(** [c in s] for a one-character [c]. *)
Fixpoint contains (c : ascii) (s : string) : bool :=
  match s with
  | EmptyString => false
  | String a s' => if Ascii.eqb a c then true else contains c s'
  end.

(** [s.find(c)]: the index of the first occurrence, [None] for [-1]. *)
Fixpoint find (c : ascii) (s : string) : option nat :=
  match s with
  | EmptyString => None
  | String a s' => if Ascii.eqb a c then Some O else option_map S (find c s')
  end.

(** [s[:n]] and [s[n:]] for [n >= 0]. *)
Fixpoint take (n : nat) (s : string) : string :=
  match n, s with
  | S n', String a s' => String a (take n' s')
  | _, _ => EmptyString
  end.

Fixpoint drop (n : nat) (s : string) : string :=
  match n, s with
  | S n', String _ s' => drop n' s'
  | _, _ => s
  end.

(** [s.find(c, start)]. *)
Definition find_from (c : ascii) (start : nat) (s : string) : option nat :=
  if (String.length s <? start)%nat then None
  else option_map (Nat.add start) (find c (drop start s)).

(** [s.rfind(c)]. *)
Fixpoint rfind (c : ascii) (s : string) : option nat :=
  match s with
  | EmptyString => None
  | String a s' =>
      match rfind c s' with
      | Some i => Some (S i)
      | None => if Ascii.eqb a c then Some O else None
      end
  end.

Fixpoint rev (s : string) : string :=
  match s with
  | EmptyString => EmptyString
  | String a s' => rev s' ++ String a EmptyString
  end.

(** [s.lstrip(chars)], [s.rstrip(chars)] and [s.strip(chars)], the set
    [chars] given by its membership test. *)
Fixpoint lstrip (p : ascii -> bool) (s : string) : string :=
  match s with
  | EmptyString => EmptyString
  | String a s' => if p a then lstrip p s' else s
  end.

Definition rstrip (p : ascii -> bool) (s : string) : string :=
  rev (lstrip p (rev s)).

Definition strip (p : ascii -> bool) (s : string) : string :=
  rstrip p (lstrip p s).

(** [s.replace(b, "")] for a one-character [b]. *)
Fixpoint remove (b : ascii) (s : string) : string :=
  match s with
  | EmptyString => EmptyString
  | String a s' => if Ascii.eqb a b then remove b s' else String a (remove b s')
  end.

(** [s.split(c)]. *)
Fixpoint split (c : ascii) (s : string) : list string :=
  match s with
  | EmptyString => [EmptyString]
  | String a s' =>
      if Ascii.eqb a c then EmptyString :: split c s'
      else match split c s' with
           | [] => [String a EmptyString]
           | seg :: segs => String a seg :: segs
           end
  end.

(** [s.split(c, 1)] when [c in s]; [s.partition(c)] in general. *)
Definition partition (c : ascii) (s : string) : string * bool * string :=
  match find c s with
  | Some i => (take i s, true, drop (S i) s)
  | None => (s, false, EmptyString)
  end.

(** [s.rpartition(c)[2]]. *)
Definition rpartition_tail (c : ascii) (s : string) : string :=
  match rfind c s with
  | Some i => drop (S i) s
  | None => s
  end.

(** [sep.join(l)]. *)
Definition join (sep : string) (l : list string) : string := String.concat sep l.

Definition is_ascii_char (a : ascii) : bool := (nat_of_ascii a <? 128)%nat.

Definition is_upper (a : ascii) : bool :=
  ((65 <=? nat_of_ascii a) && (nat_of_ascii a <=? 90))%nat.

Definition is_lower (a : ascii) : bool :=
  ((97 <=? nat_of_ascii a) && (nat_of_ascii a <=? 122))%nat.

Definition is_digit (a : ascii) : bool :=
  ((48 <=? nat_of_ascii a) && (nat_of_ascii a <=? 57))%nat.

(** [a.isascii() and a.isalpha()]. *)
Definition is_ascii_alpha (a : ascii) : bool := is_upper a || is_lower a.

Fixpoint forallb (p : ascii -> bool) (s : string) : bool :=
  match s with
  | EmptyString => true
  | String a s' => p a && forallb p s'
  end.

(** [s.isascii()]. *)
Definition isascii (s : string) : bool := forallb is_ascii_char s.

(** [s.lower()] on a string of ASCII characters. *)
Definition lower_char (a : ascii) : ascii :=
  if is_upper a then ascii_of_nat (nat_of_ascii a + 32) else a.

Fixpoint lower (s : string) : string :=
  match s with
  | EmptyString => EmptyString
  | String a s' => String (lower_char a) (lower s')
  end.

End Py.

(** ** Exceptions *)

(** Exceptions that come from outside this module: the HTTP client, the
    schema validator, the interpreter and the standard library. Each carries
    the text that [str(e)] returns. [TimeoutException] and [ConnectError]
    stand for the class and its subclasses; [HTTPStatusError] also carries
    [e.response.status_code] and [e.response.text]. Only subclasses of
    [Exception] are represented. *)
Inductive foreign_exn : Type :=
| TimeoutException (msg : string)
| ConnectError (msg : string)
| HTTPStatusError (msg : string) (status_code : Z) (text : string)
| ValidationError (msg : string)
| TypeError (msg : string)
| ValueError (msg : string)
| OtherException (msg : string).

(** An exception seen by the service: its own [LangflowServiceError], or a
    foreign one. *)
Inductive exn : Type :=
| LangflowServiceError (msg : string)
| Foreign (e : foreign_exn).

Definition str_foreign (e : foreign_exn) : string :=
  match e with
  | TimeoutException msg => msg
  | ConnectError msg => msg
  | HTTPStatusError msg _ _ => msg
  | ValidationError msg => msg
  | TypeError msg => msg
  | ValueError msg => msg
  | OtherException msg => msg
  end.

(** [str(e)]. *)
Definition str_exn (e : exn) : string :=
  match e with
  | LangflowServiceError msg => msg
  | Foreign e => str_foreign e
  end.

(** [isinstance(e, LangflowServiceError)]. *)
Definition is_service_error (e : exn) : bool :=
  match e with
  | LangflowServiceError _ => true
  | Foreign _ => false
  end.

(** ** [urllib.parse.urljoin]

    The functions of CPython's [urllib/parse.py] that [urljoin] runs on [str]
    arguments. Two library functions are parameters: Unicode normalisation
    and the validation of a bracketed host, which goes through [re] and
    [ipaddress]. *)

Module UrlParse.

Definition uses_relative : list string :=
  [""; "ftp"; "http"; "gopher"; "nntp"; "imap"; "wais"; "file"; "https";
   "shttp"; "mms"; "prospero"; "rtsp"; "rtspu"; "sftp"; "svn"; "svn+ssh";
   "ws"; "wss"].

Definition uses_netloc : list string :=
  [""; "ftp"; "http"; "gopher"; "nntp"; "telnet"; "imap"; "wais"; "file";
   "mms"; "https"; "shttp"; "snews"; "prospero"; "rtsp"; "rtspu"; "rsync";
   "svn"; "svn+ssh"; "sftp"; "nfs"; "git"; "git+ssh"; "ws"; "wss"].

Definition uses_params : list string :=
  [""; "ftp"; "hdl"; "prospero"; "http"; "imap"; "https"; "shttp"; "rtsp";
   "rtspu"; "sip"; "sips"; "mms"; "sftp"; "tel"].

(** [s in l] for a list of strings. *)
Definition mem (s : string) (l : list string) : bool :=
  existsb (String.eqb s) l.

(** [c in scheme_chars]. *)
Definition scheme_char (a : ascii) : bool :=
  Py.is_lower a || Py.is_upper a || Py.is_digit a
  || Ascii.eqb a "+" || Ascii.eqb a "-" || Ascii.eqb a ".".

(** [c in _WHATWG_C0_CONTROL_OR_SPACE]. *)
Definition c0_control_or_space (a : ascii) : bool :=
  (nat_of_ascii a <=? 32)%nat.

(** Removal of [_UNSAFE_URL_BYTES_TO_REMOVE]: tab, carriage return, newline. *)
Definition remove_unsafe (s : string) : string :=
  Py.remove "010" (Py.remove "013" (Py.remove "009" s)).

Record SplitResult : Type := mkSplit {
  s_scheme : string;
  s_netloc : string;
  s_path : string;
  s_query : string;
  s_fragment : string
}.

Record ParseResult : Type := mkParse {
  scheme : string;
  netloc : string;
  path : string;
  params : string;
  query : string;
  fragment : string
}.

Definition _splitparams (url : string) : string * string :=
  if Py.contains "/" url then
    match Py.find_from ";" (match Py.rfind "/" url with Some i => i | None => O end) url with
    | None => (url, "")
    | Some i => (Py.take i url, Py.drop (S i) url)
    end
  else
    match Py.find ";" url with
    | None => (url, "")
    | Some i => (Py.take i url, Py.drop (S i) url)
    end.

Definition _splitnetloc (url : string) (start : nat) : string * string :=
  let delim :=
    fold_left
      (fun delim c =>
         match Py.find_from c start url with
         | Some wdelim => Nat.min delim wdelim
         | None => delim
         end)
      ["/"; "?"; "#"]%char (String.length url) in
  (Py.take (delim - start) (Py.drop start url), Py.drop delim url).

Section Parse.

(** [unicodedata.normalize('NFKC', n)]. *)
Variable NFKC : string -> string.

(** [_check_bracketed_host(hostname)]: [None] when it returns, the message of
    the [ValueError] when it raises. *)
Variable _check_bracketed_host : string -> option string.

Definition _checknetloc (netloc : string) : option foreign_exn :=
  if String.eqb netloc "" || Py.isascii netloc then None
  else
    let n := Py.remove "?" (Py.remove "#" (Py.remove ":" (Py.remove "@" netloc))) in
    let netloc2 := NFKC n in
    if String.eqb n netloc2 then None
    else if existsb (fun c => Py.contains c netloc2) ["/"; "?"; "#"; "@"; ":"]%char
    then Some (ValueError ("netloc '" ++ netloc ++ "' contains invalid "
                           ++ "characters under NFKC normalization"))
    else None.

Definition _check_bracketed_netloc (netloc : string) : option foreign_exn :=
  let hostname_and_port := Py.rpartition_tail "@" netloc in
  let '(before_bracket, have_open_br, bracketed) := Py.partition "[" hostname_and_port in
  let invalid := Some (ValueError "Invalid IPv6 URL") in
  let host_check hostname := option_map ValueError (_check_bracketed_host hostname) in
  if have_open_br then
    if negb (String.eqb before_bracket "") then invalid
    else
      let '(hostname, _, port) := Py.partition "]" bracketed in
      if negb (String.eqb port "") && negb (String.eqb (Py.take 1 port) ":")
      then invalid
      else host_check hostname
  else
    let '(hostname, _, port) := Py.partition ":" hostname_and_port in
    host_check hostname.

Definition urlsplit (url scheme : string) : foreign_exn + SplitResult :=
  let url := Py.lstrip c0_control_or_space url in
  let scheme := Py.strip c0_control_or_space scheme in
  let url := remove_unsafe url in
  let scheme := remove_unsafe scheme in
  let '(scheme, url) :=
    match Py.find ":" url, url with
    | Some (S i), String a _ =>
        if Py.is_ascii_alpha a && Py.forallb scheme_char (Py.take (S i) url)
        then (Py.lower (Py.take (S i) url), Py.drop (S (S i)) url)
        else (scheme, url)
    | _, _ => (scheme, url)
    end in
  let '(netloc, url) :=
    if String.eqb (Py.take 2 url) "//" then _splitnetloc url 2 else ("", url) in
  let open_br := Py.contains "[" netloc in
  let close_br := Py.contains "]" netloc in
  if (open_br && negb close_br) || (close_br && negb open_br)
  then inl (ValueError "Invalid IPv6 URL")
  else
    match (if open_br && close_br then _check_bracketed_netloc netloc else None) with
    | Some e => inl e
    | None =>
        let '(url, fragment) :=
          if Py.contains "#" url
          then let '(u, _, f) := Py.partition "#" url in (u, f)
          else (url, "") in
        let '(url, query) :=
          if Py.contains "?" url
          then let '(u, _, q) := Py.partition "?" url in (u, q)
          else (url, "") in
        match _checknetloc netloc with
        | Some e => inl e
        | None => inr (mkSplit scheme netloc url query fragment)
        end
    end.

Definition urlparse (url scheme : string) : foreign_exn + ParseResult :=
  match urlsplit url scheme with
  | inl e => inl e
  | inr (mkSplit scheme netloc url query fragment) =>
      let '(url, params) :=
        if mem scheme uses_params && Py.contains ";" url
        then _splitparams url
        else (url, "") in
      inr (mkParse scheme netloc url params query fragment)
  end.

Definition urlunsplit (scheme netloc url query fragment : string) : string :=
  let url :=
    if negb (String.eqb netloc "")
       || (negb (String.eqb scheme "") && mem scheme uses_netloc
           && negb (String.eqb (Py.take 2 url) "//"))
    then
      let url :=
        if negb (String.eqb url "") && negb (String.eqb (Py.take 1 url) "/")
        then "/" ++ url else url in
      "//" ++ netloc ++ url
    else url in
  let url := if negb (String.eqb scheme "") then scheme ++ ":" ++ url else url in
  let url := if negb (String.eqb query "") then url ++ "?" ++ query else url in
  let url := if negb (String.eqb fragment "") then url ++ "#" ++ fragment else url in
  url.

Definition urlunparse (scheme netloc url params query fragment : string) : string :=
  let url := if negb (String.eqb params "") then url ++ ";" ++ params else url in
  urlunsplit scheme netloc url query fragment.

(** The loop of [urljoin] over [segments]: [..] pops (nothing when the list
    is empty), [.] is skipped, any other segment is appended. *)
Definition resolve_step (resolved_path : list string) (seg : string) : list string :=
  if String.eqb seg ".." then removelast resolved_path
  else if String.eqb seg "." then resolved_path
  else (resolved_path ++ [seg])%list.

(** [segments[1:-1] = filter(None, segments[1:-1])]. *)
Definition filter_middle (segments : list string) : list string :=
  match segments with
  | [] => []
  | first :: rest =>
      match rest with
      | [] => [first]
      | _ => (first :: filter (fun s => negb (String.eqb s "")) (removelast rest)
                ++ [last rest ""])%list
      end
  end.

Definition urljoin (base url : string) : foreign_exn + string :=
  if String.eqb base "" then inr url
  else if String.eqb url "" then inr base
  else
    match urlparse base "" with
    | inl e => inl e
    | inr (mkParse bscheme bnetloc bpath bparams bquery bfragment) =>
        match urlparse url bscheme with
        | inl e => inl e
        | inr (mkParse scheme netloc path params query fragment) =>
            if negb (String.eqb scheme bscheme) || negb (mem scheme uses_relative)
            then inr url
            else if mem scheme uses_netloc && negb (String.eqb netloc "")
            then inr (urlunparse scheme netloc path params query fragment)
            else
              let netloc := if mem scheme uses_netloc then bnetloc else netloc in
              if String.eqb path "" && String.eqb params ""
              then
                let query := if String.eqb query "" then bquery else query in
                inr (urlunparse scheme netloc bpath bparams query fragment)
              else
                let base_parts := Py.split "/" bpath in
                let base_parts :=
                  if negb (String.eqb (last base_parts "") "")
                  then removelast base_parts else base_parts in
                let segments :=
                  if String.eqb (Py.take 1 path) "/" then Py.split "/" path
                  else filter_middle (base_parts ++ Py.split "/" path)%list in
                let resolved_path := fold_left resolve_step segments [] in
                let resolved_path :=
                  if mem (last segments "") ["."; ".."]
                  then (resolved_path ++ [""])%list else resolved_path in
                let joined := Py.join "/" resolved_path in
                inr (urlunparse scheme netloc
                       (if String.eqb joined "" then "/" else joined)
                       params query fragment)
        end
    end.

End Parse.

End UrlParse.

(** ** Data model *)

(** A parsed JSON document, as [response.json()] returns it, and more
    generally any Python value built from [None], [bool], [int], [float],
    [str], [list] and [dict]. A float is kept as the literal it was read
    from. *)
#[warnings="-register-all"]
Inductive Json : Type :=
| JNull
| JBool (b : bool)
| JInt (n : Z)
| JFloat (literal : string)
| JStr (s : string)
| JList (l : list Json)
| JDict (d : list (string * Json)).

(** [d.get(k)] on the association list of a [dict]. *)
Fixpoint lookup {A : Type} (k : string) (d : list (string * A)) : option A :=
  match d with
  | [] => None
  | (k', v) :: d' => if String.eqb k k' then Some v else lookup k d'
  end.

(** [type(v).__name__]. *)
Definition type_name (v : Json) : string :=
  match v with
  | JNull => "NoneType"
  | JBool _ => "bool"
  | JInt _ => "int"
  | JFloat _ => "float"
  | JStr _ => "str"
  | JList _ => "list"
  | JDict _ => "dict"
  end.

(** [str(type(v))], as an f-string renders [{type(v)}]. *)
Definition str_type (v : Json) : string := "<class '" ++ type_name v ++ "'>".

(** The characters of a string, each as a one-character string. *)
Fixpoint chars (s : string) : list string :=
  match s with
  | EmptyString => []
  | String a s' => String a EmptyString :: chars s'
  end.

(** The items a [for] loop draws from a value: the elements of a list, the
    keys of a dict, the characters of a string; any other value is not
    iterable. *)
Definition iter (v : Json) : foreign_exn + list Json :=
  match v with
  | JList l => inr l
  | JDict d => inr (map (fun kv => JStr (fst kv)) d)
  | JStr s => inr (map JStr (chars s))
  | _ => inl (TypeError ("'" ++ type_name v ++ "' object is not iterable"))
  end.

Definition is_dict (v : Json) : bool :=
  match v with JDict _ => true | _ => false end.

Definition is_list (v : Json) : bool :=
  match v with JList _ => true | _ => false end.

Module FlowResponse.

Record t : Type := mk {
  id : string;
  name : string;
  folder_id : string;
  is_component : bool;
  endpoint_name : option string;
  description : string;
  data : Json;
  access_type : string;
  tags : list string;
  mcp_enabled : bool;
  action_name : option string;
  action_description : option string
}.

End FlowResponse.

Module FlowExecutionRequest.

Record t : Type := mk {
  input_value : string;
  output_type : string;
  input_type : string;
  tweaks : list (string * Json)
}.

(** The constructor: a field that is not supplied takes its default. *)
Definition new (input_value : string) (output_type input_type : option string)
  (tweaks : option (list (string * Json))) : t :=
  mk input_value
     (match output_type with Some v => v | None => "chat" end)
     (match input_type with Some v => v | None => "chat" end)
     (match tweaks with Some v => v | None => [] end).

Definition model_dump (r : t) : Json :=
  JDict [("input_value", JStr (input_value r));
         ("output_type", JStr (output_type r));
         ("input_type", JStr (input_type r));
         ("tweaks", JDict (tweaks r))].

End FlowExecutionRequest.

Module FlowExecutionResponse.

Record t : Type := mk {
  success : bool;
  result : Json;
  error : option string
}.

End FlowExecutionResponse.

(** An [httpx.Response], by what the service asks of it. [raise_for_status]
    is [None] when the call returns and the exception when it raises; [json]
    is the parsed body, or the exception of the decoder. *)
Module Response.

Record t : Type := mk {
  status_code : Z;
  text : string;
  raise_for_status : option foreign_exn;
  json : foreign_exn + Json
}.

End Response.

(** ** The world outside the service *)

(** One call of [client.request(method, url, **kwargs)]. *)
Record Request : Type := mkRequest {
  method : string;
  url : string;
  kwargs : list (string * Json)
}.

(** What the service does to the outside, in the order it happens. *)
Inductive Event : Type :=
| EvRequest (r : Request)
| EvSleep (seconds : Z).

(** The remote platform and the network: what a request yields, given
    everything that happened before it. *)
Definition Remote : Type := list Event -> Request -> foreign_exn + Response.t.

Record AsyncClient : Type := mkClient {
  max_keepalive_connections : Z;
  max_connections : Z;
  is_closed : bool
}.

(** [_client] is the attribute [self._client]; [events] is the history. *)
Record State : Type := mkState {
  remote : Remote;
  events : list Event;
  _client : option AsyncClient
}.

(** The attributes of a [LangflowService] that never change after
    [__init__]. The timeout, a float, only configures the client and is
    part of [remote]. *)
Record LangflowService : Type := mkService {
  base_url : string
}.

Definition default_base_url : string := "http://localhost:7860".

(** [LangflowService(base_url)]: [base_url.rstrip('/')]. *)
Definition init (base_url : string) : LangflowService :=
  mkService (Py.rstrip (Ascii.eqb "/") base_url).

(** The requests of a history, and the waits of a history. *)
Fixpoint requests_of (evs : list Event) : list Request :=
  match evs with
  | [] => []
  | EvRequest r :: evs' => r :: requests_of evs'
  | EvSleep _ :: evs' => requests_of evs'
  end.

Fixpoint sleeps_of (evs : list Event) : list Z :=
  match evs with
  | [] => []
  | EvRequest _ :: evs' => sleeps_of evs'
  | EvSleep s :: evs' => s :: sleeps_of evs'
  end.

(** ** State and exceptions *)

Definition M (A : Type) : Type := State -> (exn + A) * State.

Definition ret {A : Type} (a : A) : M A := fun st => (inr a, st).

Definition raise {A : Type} (e : exn) : M A := fun st => (inl e, st).

Definition bind {A B : Type} (c : M A) (k : A -> M B) : M B :=
  fun st =>
    match c st with
    | (inr a, st') => k a st'
    | (inl e, st') => (inl e, st')
    end.

(** [try: c] with the outcome handed to the handlers. *)
Definition catch {A : Type} (c : M A) : M (exn + A) :=
  fun st => let '(r, st') := c st in (inr r, st').

(** A library call that returns or raises a foreign exception. *)
Definition lift {A : Type} (r : foreign_exn + A) : M A :=
  match r with
  | inr a => ret a
  | inl e => raise (Foreign e)
  end.

Declare Scope py_scope.
Delimit Scope py_scope with py.
Notation "x <- c ;; k" := (bind c (fun x => k))
  (at level 100, c at next level, right associativity) : py_scope.
Notation "c ;;; k" := (bind c (fun _ => k))
  (at level 100, right associativity) : py_scope.
Open Scope py_scope.

Definition emit (ev : Event) : M unit :=
  fun st => (inr tt, mkState (remote st) (events st ++ [ev]) (_client st)).

(** [await asyncio.sleep(seconds)]. *)
Definition sleep (seconds : Z) : M unit := emit (EvSleep seconds).

(** [await client.request(method, url, **kwargs)]: the remote answers from
    the history before the call. *)
Definition client_request (method url : string) (kwargs : list (string * Json)) : M Response.t :=
  fun st =>
    let req := mkRequest method url kwargs in
    let st' := mkState (remote st) (events st ++ [EvRequest req]) (_client st) in
    match remote st (events st) req with
    | inr response => (inr response, st')
    | inl e => (inl (Foreign e), st')
    end.

(** [range(n)]. *)
Definition range (n : Z) : list Z := map Z.of_nat (seq 0 (Z.to_nat n)).

(** ** The service *)

Section Service.

(** The two library parameters of [UrlParse]. *)
Variable NFKC : string -> string.
Variable _check_bracketed_host : string -> option string.

(** The schema validation that the constructor of [FlowResponse] runs on
    its keyword arguments: the model, or the message of the
    [ValidationError]. *)
Variable model_validate : list (string * Json) -> string + FlowResponse.t.

Definition urljoin : string -> string -> foreign_exn + string :=
  UrlParse.urljoin NFKC _check_bracketed_host.

(** The constructor of [FlowResponse] on the unpacked [flow_data]:
    unpacking needs a mapping. *)
Definition FlowResponse_new (flow_data : Json) : foreign_exn + FlowResponse.t :=
  match flow_data with
  | JDict d =>
      match model_validate d with
      | inr flow => inr flow
      | inl msg => inl (ValidationError msg)
      end
  | _ => inl (TypeError ("services.langflow_service.FlowResponse() argument "
                         ++ "after ** must be a mapping, not " ++ type_name flow_data))
  end.

Definition _get_client (self : LangflowService) : M AsyncClient :=
  fun st =>
    let create :=
      let client := mkClient 5 10 false in
      (inr client, mkState (remote st) (events st) (Some client)) in
    match _client st with
    | None => create
    | Some client => if is_closed client then create else (inr client, st)
    end.

(** What the handlers of one attempt decide. *)
Inductive Handled : Type :=
| Return (response : Response.t)
| Reraise (e : exn)
| Retry (last_exception : foreign_exn).

(** The [except] clauses of [_make_request_with_retry], applied to the
    outcome of the [try] body. *)
Definition handle (outcome : exn + Response.t) : Handled :=
  match outcome with
  | inr response => Return response
  | inl (Foreign (TimeoutException msg)) => Retry (TimeoutException msg)
  | inl (Foreign (ConnectError msg)) => Retry (ConnectError msg)
  | inl (Foreign (HTTPStatusError msg status_code text)) =>
      if (400 <=? status_code) && (status_code <? 500)
      then Reraise (LangflowServiceError
                      ("Client error " ++ Py.str_int status_code ++ ": " ++ text))
      else Retry (HTTPStatusError msg status_code text)
  | inl e => Reraise e
  end.

(** [str(last_exception)] in the final message. *)
Definition str_last (last_exception : option foreign_exn) : string :=
  match last_exception with
  | None => "None"
  | Some e => str_foreign e
  end.

(** The body of the [try]: the request, then [response.raise_for_status()]. *)
Definition send (method url : string) (kwargs : list (string * Json)) : M Response.t :=
  response <- client_request method url kwargs ;;
  match Response.raise_for_status response with
  | None => ret response
  | Some e => raise (Foreign e)
  end.

(** The [for attempt in range(max_retries + 1)] loop and what follows it. *)
Fixpoint attempts (method url : string) (max_retries : Z)
  (kwargs : list (string * Json)) (todo : list Z)
  (last_exception : option foreign_exn) : M Response.t :=
  match todo with
  | [] =>
      let error_msg :=
        "Failed to make request after " ++ Py.str_int (max_retries + 1)
        ++ " attempts: " ++ str_last last_exception in
      raise (LangflowServiceError error_msg)
  | attempt :: todo' =>
      outcome <- catch (send method url kwargs) ;;
      match handle outcome with
      | Return response => ret response
      | Reraise e => raise e
      | Retry e =>
          (if attempt <? max_retries then sleep (2 ^ attempt) else ret tt) ;;;
          attempts method url max_retries kwargs todo' (Some e)
      end
  end.

Definition _make_request_with_retry (self : LangflowService)
  (method url : string) (max_retries : Z) (kwargs : list (string * Json)) : M Response.t :=
  client <- _get_client self ;;
  attempts method url max_retries kwargs (range (max_retries + 1)) None.

(** The loop of [get_flows] over the records. *)
Fixpoint collect (items : list Json) (flows : list FlowResponse.t)
  : exn + list FlowResponse.t :=
  match items with
  | [] => inr flows
  | flow_data :: items' =>
      match FlowResponse_new flow_data with
      | inr flow => collect items' (flows ++ [flow])
      | inl (ValidationError _) => collect items' flows
      | inl e => inl (Foreign e)
      end
  end.

(** The [try] body of [get_flows]. *)
Definition get_flows_try (self : LangflowService) : M (list FlowResponse.t) :=
  url <- lift (urljoin (base_url self) "/api/v1/flows/") ;;
  let params := JDict [("header_flows", JStr "true"); ("get_all", JStr "true")] in
  response <- _make_request_with_retry self "GET" url 3 [("params", params)] ;;
  response_data <- lift (Response.json response) ;;
  flows_data <-
    match response_data with
    | JDict d =>
        match lookup "flows" d with
        | Some v => ret v
        | None => raise (LangflowServiceError
                           ("Unexpected response format: " ++ str_type response_data))
        end
    | JList _ => ret response_data
    | _ => raise (LangflowServiceError
                    ("Unexpected response format: " ++ str_type response_data))
    end ;;
  items <- lift (iter flows_data) ;;
  fun st => (collect items [], st).

Definition get_flows (self : LangflowService) : M (list FlowResponse.t) :=
  r <- catch (get_flows_try self) ;;
  match r with
  | inr flows => ret flows
  | inl e =>
      if is_service_error e then raise e
      else raise (LangflowServiceError ("Failed to fetch flows: " ++ str_exn e))
  end.

(** The [try] body of [execute_flow]. *)
Definition execute_flow_try (self : LangflowService) (flow_id : string)
  (execution_request : FlowExecutionRequest.t) : M FlowExecutionResponse.t :=
  url <- lift (urljoin (base_url self) ("/api/v1/run/" ++ flow_id)) ;;
  let payload := FlowExecutionRequest.model_dump execution_request in
  response <- _make_request_with_retry self "POST" url 3
                [("json", payload);
                 ("headers", JDict [("Content-Type", JStr "application/json")])] ;;
  response_data <- lift (Response.json response) ;;
  ret (FlowExecutionResponse.mk true response_data None).

Definition execute_flow (self : LangflowService) (flow_id : string)
  (execution_request : FlowExecutionRequest.t) : M FlowExecutionResponse.t :=
  r <- catch (execute_flow_try self flow_id execution_request) ;;
  match r with
  | inr execution_response => ret execution_response
  | inl (LangflowServiceError msg) =>
      ret (FlowExecutionResponse.mk false JNull (Some msg))
  | inl e =>
      let error_msg := "Unexpected error during flow execution: " ++ str_exn e in
      ret (FlowExecutionResponse.mk false JNull (Some error_msg))
  end.

End Service.

(** ** A concrete environment for running the model *)

(** Normalisation leaves ASCII text as it is. *)
Definition ascii_NFKC (s : string) : string := s.

(** A bracketed-host validation that accepts. *)
Definition accept_bracketed_host (_ : string) : option string := None.

Definition get_str (k : string) (d : list (string * Json)) : option string :=
  match lookup k d with
  | Some (JStr s) => Some s
  | _ => None
  end.

Definition get_bool (k : string) (d : list (string * Json)) : option bool :=
  match lookup k d with
  | Some (JBool b) => Some b
  | _ => None
  end.

(** An [Optional[str]] field with default [None]. *)
Definition get_optional_str (k : string) (d : list (string * Json)) : option (option string) :=
  match lookup k d with
  | None => Some None
  | Some JNull => Some None
  | Some (JStr s) => Some (Some s)
  | Some _ => None
  end.

Fixpoint all_str (l : list Json) : option (list string) :=
  match l with
  | [] => Some []
  | JStr s :: l' => option_map (cons s) (all_str l')
  | _ :: _ => None
  end.

Definition get_str_list (k : string) (d : list (string * Json)) : option (list string) :=
  match lookup k d with
  | Some (JList l) => all_str l
  | _ => None
  end.

Definition and_then {A B : Type} (o : option A) (k : A -> option B) : option B :=
  match o with
  | Some a => k a
  | None => None
  end.

(** A validator for the schema of [FlowResponse] that accepts, for each
    field, exactly the JSON type of its annotation; keys that are not fields
    are ignored. *)
Definition strict_validate (d : list (string * Json)) : string + FlowResponse.t :=
  let parsed :=
    and_then (get_str "id" d) (fun id =>
    and_then (get_str "name" d) (fun name =>
    and_then (get_str "folder_id" d) (fun folder_id =>
    and_then (get_bool "is_component" d) (fun is_component =>
    and_then (get_optional_str "endpoint_name" d) (fun endpoint_name =>
    and_then (get_str "description" d) (fun description =>
    and_then (get_str "access_type" d) (fun access_type =>
    and_then (get_str_list "tags" d) (fun tags =>
    and_then (get_bool "mcp_enabled" d) (fun mcp_enabled =>
    and_then (get_optional_str "action_name" d) (fun action_name =>
    and_then (get_optional_str "action_description" d) (fun action_description =>
    Some (FlowResponse.mk id name folder_id is_component endpoint_name
            description
            (match lookup "data" d with Some v => v | None => JNull end)
            access_type tags mcp_enabled action_name action_description))))))))))))
  in
  match parsed with
  | Some flow => inr flow
  | None => inl "validation error for FlowResponse"
  end.

(** A remote that answers the [k]-th request with the [k]-th entry of a
    script, and with [fallback] once the script is used up. *)
Definition scripted (script : list (foreign_exn + Response.t))
  (fallback : foreign_exn + Response.t) : Remote :=
  fun evs _ => nth (List.length (requests_of evs)) script fallback.

(** A response whose [raise_for_status] returns and whose body parses to
    [body]. *)
Definition ok_response (body : Json) : Response.t :=
  Response.mk 200 "" None (inr body).

Definition fresh (r : Remote) : State := mkState r [] None.

(** ** The session *)

(** [close]: a client that exists and is open is closed. *)
Definition close (self : LangflowService) : M unit :=
  fun st =>
    match _client st with
    | Some client =>
        if negb (is_closed client)
        then (inr tt,
              mkState (remote st) (events st)
                (Some (mkClient (max_keepalive_connections client)
                         (max_connections client) true)))
        else (inr tt, st)
    | None => (inr tt, st)
    end.

Definition __aenter__ (self : LangflowService) : M LangflowService := ret self.

(** [__aexit__] closes and returns [None], so an exception of the block is
    not suppressed. *)
Definition __aexit__ (self : LangflowService) (exc_val : option exn) : M unit :=
  close self.

(** [LangflowService(base_url)] as a statement: the new object has no
    client yet. *)
Definition LangflowService_new (base_url : string) : M LangflowService :=
  fun st => (inr (init base_url), mkState (remote st) (events st) None).

(** [async with service as svc: body]. *)
Definition async_with {A : Type} (service : LangflowService)
  (body : LangflowService -> M A) : M A :=
  svc <- __aenter__ service ;;
  r <- catch (body svc) ;;
  match r with
  | inr a => __aexit__ service None ;;; ret a
  | inl e => __aexit__ service (Some e) ;;; raise e
  end.

(** ** The gateway, [backend/main.py] *)

Definition dump_optional (o : option string) : Json :=
  match o with
  | Some s => JStr s
  | None => JNull
  end.

(** [flow.model_dump()]. *)
Definition FlowResponse_model_dump (flow : FlowResponse.t) : Json :=
  JDict [("id", JStr (FlowResponse.id flow));
         ("name", JStr (FlowResponse.name flow));
         ("folder_id", JStr (FlowResponse.folder_id flow));
         ("is_component", JBool (FlowResponse.is_component flow));
         ("endpoint_name", dump_optional (FlowResponse.endpoint_name flow));
         ("description", JStr (FlowResponse.description flow));
         ("data", FlowResponse.data flow);
         ("access_type", JStr (FlowResponse.access_type flow));
         ("tags", JList (map JStr (FlowResponse.tags flow)));
         ("mcp_enabled", JBool (FlowResponse.mcp_enabled flow));
         ("action_name", dump_optional (FlowResponse.action_name flow));
         ("action_description", dump_optional (FlowResponse.action_description flow))].

(** [result.model_dump()]. *)
Definition FlowExecutionResponse_model_dump (r : FlowExecutionResponse.t) : Json :=
  JDict [("success", JBool (FlowExecutionResponse.success r));
         ("result", FlowExecutionResponse.result r);
         ("error", dump_optional (FlowExecutionResponse.error r))].

Module Main.

Record ExecuteFlowRequest : Type := mkExecute {
  input_value : string;
  tweaks : list (string * Json)
}.

Inductive HTTPException : Type :=
| mkHTTPException (status_code : Z) (detail : string).

(** What a route hands to the framework: the value it returns, or the
    [HTTPException] it raises. *)
Definition Route : Type := State -> (HTTPException + Json) * State.

(** The [try] / [except] of every route around its block. *)
Definition guarded (block : M Json) : Route :=
  fun st =>
    match block st with
    | (inr v, st') => (inr v, st')
    | (inl (LangflowServiceError msg), st') =>
        (inl (mkHTTPException 503 ("Langflow service error: " ++ msg)), st')
    | (inl (Foreign e), st') =>
        (inl (mkHTTPException 500 ("Unexpected error: " ++ str_foreign e)), st')
    end.

Definition root : Json := JDict [("message", JStr "Langflow Integration API")].

Definition hardcoded_flow_id : string := "de90b072-14d5-4983-b9ac-85156fef9bb4".

Section Routes.

Variable NFKC : string -> string.
Variable _check_bracketed_host : string -> option string.
Variable model_validate : list (string * Json) -> string + FlowResponse.t.

(** The methods of the service at the parameters of this section. *)
Local Abbreviation service_get_flows :=
  (get_flows NFKC _check_bracketed_host model_validate).
Local Abbreviation service_execute_flow :=
  (execute_flow NFKC _check_bracketed_host).

Definition get_flows : Route :=
  guarded
    (service <- LangflowService_new default_base_url ;;
     async_with service (fun service =>
       flows <- service_get_flows service ;;
       ret (JDict [("flows", JList (map FlowResponse_model_dump flows))]))).

Definition execute_flow (flow_id : string) (request : ExecuteFlowRequest) : Route :=
  guarded
    (service <- LangflowService_new default_base_url ;;
     async_with service (fun service =>
       let execution_request :=
         FlowExecutionRequest.new (input_value request) None None
           (Some (tweaks request)) in
       result <- service_execute_flow service flow_id execution_request ;;
       ret (FlowExecutionResponse_model_dump result))).

Definition test_hardcoded_flow (request : ExecuteFlowRequest) : Route :=
  guarded
    (service <- LangflowService_new default_base_url ;;
     async_with service (fun service =>
       let execution_request :=
         FlowExecutionRequest.new (input_value request) None None
           (Some (tweaks request)) in
       result <- service_execute_flow service hardcoded_flow_id execution_request ;;
       ret (JDict [("flow_id", JStr hardcoded_flow_id);
                   ("execution_result", FlowExecutionResponse_model_dump result)]))).

Definition test_langflow : Route :=
  guarded
    (service <- LangflowService_new default_base_url ;;
     async_with service (fun service =>
       flows <- service_get_flows service ;;
       ret (JDict
              [("status", JStr "success");
               ("message",
                JStr ("Successfully connected to Langflow. Found "
                      ++ Py.str_int (Z.of_nat (List.length flows)) ++ " flows."));
               ("flows_count", JInt (Z.of_nat (List.length flows)));
               ("sample_flows",
                JList (map (fun flow =>
                              JDict [("id", JStr (FlowResponse.id flow));
                                     ("name", JStr (FlowResponse.name flow))])
                         (firstn 3 flows)))]))).

End Routes.

End Main.

(** ** Vocabulary of the statements *)

Open Scope list_scope.

(** The state after more events. *)
Definition log (evs : list Event) (st : State) : State :=
  mkState (remote st) (events st ++ evs) (_client st).

(** What the [try] body of an attempt yields when the history is [evs]. *)
Definition outcome_at (rm : Remote) (evs : list Event) (req : Request) : exn + Response.t :=
  match rm evs req with
  | inl e => inl (Foreign e)
  | inr response =>
      match Response.raise_for_status response with
      | None => inr response
      | Some e => inl (Foreign e)
      end
  end.

(** [count] failed attempts, the first with index [first], each followed by
    its wait. *)
Definition rounds (req : Request) (first count : nat) : list Event :=
  flat_map (fun i => [EvRequest req; EvSleep (2 ^ Z.of_nat i)]) (seq first count).

(** [k] attempts, the first with index [first]: a wait of [2 ^ i] after
    attempt [i], and none after the last. *)
Definition trace_of (req : Request) (first k : nat) : list Event :=
  match k with
  | O => []
  | S k' => rounds req first k' ++ [EvRequest req]
  end.

(** The failures that the specification calls retryable. *)
Inductive transient : foreign_exn -> Prop :=
| transient_timeout : forall msg, transient (TimeoutException msg)
| transient_connect : forall msg, transient (ConnectError msg)
| transient_server : forall msg status_code text,
    500 <= status_code < 600 -> transient (HTTPStatusError msg status_code text).

(** The handlers send the failure [e] of an attempt back into the loop. *)
Definition retried (e : foreign_exn) : Prop := handle (inl (Foreign e)) = Retry e.

(** The keyword arguments of the request of [execute_flow]. *)
Definition run_kwargs (execution_request : FlowExecutionRequest.t) : list (string * Json) :=
  [("json", FlowExecutionRequest.model_dump execution_request);
   ("headers", JDict [("Content-Type", JStr "application/json")])].

(** The keyword arguments of the request of [get_flows]. *)
Definition flows_kwargs : list (string * Json) :=
  [("params", JDict [("header_flows", JStr "true"); ("get_all", JStr "true")])].

(** The records of a list that pass validation, parsed, in the order of the
    list: the result that the specification asks of [get_flows]. *)
Definition validated (model_validate : list (string * Json) -> string + FlowResponse.t)
  (records : list Json) : list FlowResponse.t :=
  flat_map
    (fun record =>
       match record with
       | JDict d => match model_validate d with
                    | inr flow => [flow]
                    | inl _ => []
                    end
       | _ => []
       end)
    records.

(** The record passes validation. *)
Definition valid (model_validate : list (string * Json) -> string + FlowResponse.t)
  (record : Json) : bool :=
  match record with
  | JDict d => match model_validate d with
               | inr _ => true
               | inl _ => false
               end
  | _ => false
  end.

(** The value is a list whose elements are all records. *)
Definition record_list (v : Json) : bool :=
  match v with
  | JList l => forallb is_dict l
  | _ => false
  end.

(** What [get_flows] makes of the outcome of its [try] body. *)
Definition wrapped (r : exn + list FlowResponse.t) : exn + list FlowResponse.t :=
  match r with
  | inr flows => inr flows
  | inl e =>
      if is_service_error e then inl e
      else inl (LangflowServiceError ("Failed to fetch flows: " ++ str_exn e)%string)
  end.

(** The characters of a plain flow identifier: letters, digits, [-], [_]. *)
Definition id_char (a : ascii) : bool :=
  Py.is_lower a || Py.is_upper a || Py.is_digit a
  || Ascii.eqb a "-" || Ascii.eqb a "_".

(** The characters of a plain host with an optional port: letters, digits,
    [-], [.], [:]. *)
Definition host_char (a : ascii) : bool :=
  Py.is_lower a || Py.is_upper a || Py.is_digit a
  || Ascii.eqb a "-" || Ascii.eqb a "." || Ascii.eqb a ":".

(** The service and the records of the test suite. *)
Definition test_service : LangflowService := init "http://test-langflow:7860".

Definition valid_record : Json :=
  JDict [("id", JStr "flow-1"); ("name", JStr "Valid Flow");
         ("folder_id", JStr "folder-1"); ("is_component", JBool false);
         ("description", JStr "Valid flow"); ("access_type", JStr "public");
         ("tags", JList []); ("mcp_enabled", JBool true)].

Definition valid_flow : FlowResponse.t :=
  FlowResponse.mk "flow-1" "Valid Flow" "folder-1" false None "Valid flow"
    JNull "public" [] true None None.

Definition invalid_record : Json :=
  JDict [("id", JStr "flow-2"); ("name", JStr "Invalid Flow")].

(** A remote that answers every request with the same parsed body. *)
Definition answering (body : Json) : State :=
  fresh (scripted [] (inr (ok_response body))).

(** The exception belongs to none of the three classes that the retry
    primitive catches. *)
Definition uncaught (e : foreign_exn) : bool :=
  match e with
  | TimeoutException _ | ConnectError _ | HTTPStatusError _ _ _ => false
  | _ => true
  end.

(** The service holds no open client. *)
Definition no_open_client (st : State) : Prop :=
  match _client st with
  | None => True
  | Some client => is_closed client = true
  end.

(** The state in which a new service object starts. *)
Definition with_new_service (st : State) : State :=
  mkState (remote st) (events st) None.

(** The sum of a list of waits. *)
Definition total (waits : list Z) : Z := fold_right Z.add 0 waits.

(** What a route makes of the outcome of its block. *)
Definition answer (r : exn + Json) : Main.HTTPException + Json :=
  match r with
  | inr v => inr v
  | inl (LangflowServiceError msg) =>
      inl (Main.mkHTTPException 503 ("Langflow service error: " ++ msg)%string)
  | inl (Foreign e) =>
      inl (Main.mkHTTPException 500 ("Unexpected error: " ++ str_foreign e)%string)
  end.

(** The route ends with the service closed, does not change the remote, and
    only adds to the history. *)
Definition ends_session (route : Main.Route) : Prop :=
  forall st : State,
    no_open_client (snd (route st))
    /\ remote (snd (route st)) = remote st
    /\ exists new, events (snd (route st)) = events st ++ new.

(** ** The retry primitive *)

Lemma log_log (e1 e2 : list Event) (st : State) :
  log e2 (log e1 st) = log (e1 ++ e2) st.
Proof. unfold log; simpl. now rewrite <- app_assoc. Qed.

Lemma log_nil (st : State) : log [] st = st.
Proof. destruct st; unfold log; simpl. now rewrite app_nil_r. Qed.

Lemma send_run (m u : string) (kw : list (string * Json)) (st : State) :
  send m u kw st
  = (outcome_at (remote st) (events st) (mkRequest m u kw),
     log [EvRequest (mkRequest m u kw)] st).
Proof.
  unfold send, bind, client_request, outcome_at, log, ret, raise.
  destruct (remote st (events st) (mkRequest m u kw)) as [e | response]; [reflexivity |].
  now destruct (Response.raise_for_status response).
Qed.

(** One turn of the loop. *)
Lemma attempts_cons (m u : string) (mr : Z) (kw : list (string * Json))
  (a : Z) (todo : list Z) (last : option foreign_exn) (st : State) :
  attempts m u mr kw (a :: todo) last st
  = let st1 := log [EvRequest (mkRequest m u kw)] st in
    match handle (outcome_at (remote st) (events st) (mkRequest m u kw)) with
    | Return response => (inr response, st1)
    | Reraise e => (inl e, st1)
    | Retry e =>
        attempts m u mr kw todo (Some e)
          (if a <? mr then log [EvSleep (2 ^ a)] st1 else st1)
    end.
Proof.
  cbn [attempts]. unfold bind at 1. unfold catch. rewrite send_run.
  destruct (handle _); try reflexivity.
  unfold bind. now destruct (a <? mr).
Qed.

Lemma rounds_S_front (req : Request) (a k : nat) :
  rounds req a (S k)
  = EvRequest req :: EvSleep (2 ^ Z.of_nat a) :: rounds req (S a) k.
Proof. reflexivity. Qed.

Lemma rounds_S_back (req : Request) (a k : nat) :
  rounds req a (S k)
  = rounds req a k ++ [EvRequest req; EvSleep (2 ^ Z.of_nat (a + k))].
Proof.
  unfold rounds. rewrite seq_S, flat_map_app. reflexivity.
Qed.

Lemma trace_of_S_S (req : Request) (a k : nat) :
  trace_of req a (S (S k))
  = EvRequest req :: EvSleep (2 ^ Z.of_nat a) :: trace_of req (S a) (S k).
Proof. reflexivity. Qed.

(** Whatever the remote does, the loop leaves behind attempts separated by
    waits of [2 ^ attempt], and no wait after the last attempt. *)
Lemma attempts_trace (m u : string) (mr : Z) (kw : list (string * Json)) :
  forall (n a : nat) (last : option foreign_exn) (st : State),
    (n = O \/ Z.of_nat (a + n) = mr + 1) ->
    exists k : nat,
      (k <= n)%nat /\ ((1 <= n)%nat -> (1 <= k)%nat)
      /\ snd (attempts m u mr kw (map Z.of_nat (seq a n)) last st)
         = log (trace_of (mkRequest m u kw) a k) st.
Proof.
  induction n as [| n IH]; intros a last st Hn.
  - exists O. simpl. rewrite log_nil. repeat split; lia.
  - destruct Hn as [Hn | Hn]; [discriminate |].
    cbn [seq map]. rewrite attempts_cons. cbv zeta.
    destruct (handle _) as [response | e | e].
    + exists 1%nat. simpl. repeat split; lia.
    + exists 1%nat. simpl. repeat split; lia.
    + destruct n as [| n].
      * replace (Z.of_nat a <? mr) with false by (symmetry; apply Z.ltb_ge; lia).
        exists 1%nat. simpl. repeat split; lia.
      * replace (Z.of_nat a <? mr) with true by (symmetry; apply Z.ltb_lt; lia).
        destruct (IH (S a) (Some e)
                    (log [EvSleep (2 ^ Z.of_nat a)]
                       (log [EvRequest (mkRequest m u kw)] st)))
          as (k & Hk & Hk1 & Hs); [right; lia |].
        destruct k as [| k]; [lia |].
        exists (S (S k)). rewrite Hs, !log_log, trace_of_S_S.
        repeat split; lia.
Qed.

Lemma get_client_events (self : LangflowService) (st : State) :
  events (snd (_get_client self st)) = events st
  /\ remote (snd (_get_client self st)) = remote st
  /\ exists c, fst (_get_client self st) = inr c.
Proof.
  unfold _get_client. destruct (_client st) as [c |]; simpl.
  - destruct (is_closed c); simpl; eauto.
  - eauto.
Qed.

Lemma retry_unfold (self : LangflowService) (m u : string) (mr : Z)
  (kw : list (string * Json)) (st : State) :
  _make_request_with_retry self m u mr kw st
  = attempts m u mr kw (range (mr + 1)) None (snd (_get_client self st)).
Proof.
  unfold _make_request_with_retry, bind.
  destruct (get_client_events self st) as (_ & _ & c & Hc).
  destruct (_get_client self st) as [r st1]. simpl in *. now subst r.
Qed.

(** The history that a call of the retry primitive adds. *)
Lemma retry_trace (self : LangflowService) (m u : string) (mr : Z)
  (kw : list (string * Json)) (st : State) :
  exists k : nat,
    (k <= Z.to_nat (mr + 1))%nat /\ (0 <= mr -> (1 <= k)%nat)
    /\ events (snd (_make_request_with_retry self m u mr kw st))
       = events st ++ trace_of (mkRequest m u kw) 0 k.
Proof.
  rewrite retry_unfold. unfold range.
  destruct (attempts_trace m u mr kw (Z.to_nat (mr + 1)) 0 None
              (snd (_get_client self st))) as (k & Hk & Hk1 & Hs).
  - destruct (Z_lt_le_dec mr 0); [left | right]; lia.
  - exists k. rewrite Hs. simpl.
    destruct (get_client_events self st) as (He & _). rewrite He.
    repeat split; [exact Hk | intros; apply Hk1; lia].
Qed.

Lemma requests_of_app (e1 e2 : list Event) :
  requests_of (e1 ++ e2) = requests_of e1 ++ requests_of e2.
Proof.
  induction e1 as [| [r | s] e1 IH]; simpl; [reflexivity | now rewrite IH | exact IH].
Qed.

Lemma sleeps_of_app (e1 e2 : list Event) :
  sleeps_of (e1 ++ e2) = sleeps_of e1 ++ sleeps_of e2.
Proof.
  induction e1 as [| [r | s] e1 IH]; simpl; [reflexivity | exact IH | now rewrite IH].
Qed.

Lemma requests_of_rounds (req : Request) (k a : nat) :
  requests_of (rounds req a k) = repeat req k.
Proof.
  revert a. induction k as [| k IH]; intro a; [reflexivity |].
  rewrite rounds_S_front. simpl. now rewrite IH.
Qed.

Lemma sleeps_of_rounds (req : Request) (k a : nat) :
  sleeps_of (rounds req a k) = map (fun i => 2 ^ Z.of_nat i) (seq a k).
Proof.
  revert a. induction k as [| k IH]; intro a; [reflexivity |].
  rewrite rounds_S_front. simpl. now rewrite IH.
Qed.

(** [k] attempts are [k] requests. *)
Lemma requests_of_trace_of (req : Request) (k : nat) :
  requests_of (trace_of req 0 k) = repeat req k.
Proof.
  destruct k as [| k]; [reflexivity |].
  unfold trace_of. rewrite requests_of_app, requests_of_rounds. simpl.
  now rewrite <- repeat_cons.
Qed.

(** [k] attempts are separated by [k - 1] waits: 1, 2, 4, ... *)
Lemma sleeps_of_trace_of (req : Request) (k : nat) :
  sleeps_of (trace_of req 0 k) = map (fun i => 2 ^ Z.of_nat i) (seq 0 (pred k)).
Proof.
  destruct k as [| k]; [reflexivity |].
  unfold trace_of. rewrite sleeps_of_app, sleeps_of_rounds. simpl.
  now rewrite app_nil_r.
Qed.

Lemma transient_retried (e : foreign_exn) : transient e -> retried e.
Proof.
  intros [msg | msg | msg code text Hc]; unfold retried; simpl; try reflexivity.
  replace (code <? 500) with false by (symmetry; apply Z.ltb_ge; lia).
  now rewrite andb_false_r.
Qed.

(** A status error goes back into the loop exactly when its status is not a
    client error. *)
Lemma status_retried (msg : string) (code : Z) (text : string) :
  retried (HTTPStatusError msg code text) <-> ~ (400 <= code < 500).
Proof.
  unfold retried; simpl.
  destruct (400 <=? code) eqn:H1; destruct (code <? 500) eqn:H2; simpl;
    rewrite ?Z.leb_le, ?Z.leb_gt, ?Z.ltb_lt, ?Z.ltb_ge in *;
    split; intro H; try reflexivity; try discriminate; try lia.
Qed.

(** When every attempt fails with a retried failure, the loop runs to its
    end and reports the failure of the last attempt. *)
Lemma attempts_exhausted (m u : string) (mr : Z) (kw : list (string * Json))
  (fails : nat -> foreign_exn) (rm : Remote) (ev0 : list Event) :
  let req := mkRequest m u kw in
  (forall i : nat, (Z.of_nat i <= mr) ->
     retried (fails i)
     /\ outcome_at rm (ev0 ++ rounds req 0 i) req = inl (Foreign (fails i))) ->
  forall (n a : nat) (last : option foreign_exn) (st : State),
    Z.of_nat (a + n) = mr ->
    remote st = rm ->
    events st = ev0 ++ rounds req 0 a ->
    attempts m u mr kw (map Z.of_nat (seq a (S n))) last st
    = (inl (LangflowServiceError
              ("Failed to make request after " ++ Py.str_int (mr + 1)
               ++ " attempts: " ++ str_foreign (fails (a + n)%nat))%string),
       mkState rm (ev0 ++ trace_of req 0 (S (a + n))) (_client st)).
Proof.
  intros req Hfail. induction n as [| n IH]; intros a last st Hmr Hrm Hev.
  - cbn [seq map]. rewrite attempts_cons. cbv zeta.
    destruct (Hfail a) as [Hr Ho]; [lia |].
    rewrite Hrm, Hev. fold req. rewrite Ho, Hr.
    replace (Z.of_nat a <? mr) with false by (symmetry; apply Z.ltb_ge; lia).
    cbn [attempts]. unfold raise, log. simpl.
    rewrite Nat.add_0_r, Hrm, Hev, <- app_assoc. reflexivity.
  - cbn [seq map]. rewrite attempts_cons. cbv zeta.
    destruct (Hfail a) as [Hr Ho]; [lia |].
    rewrite Hrm, Hev. fold req. rewrite Ho, Hr.
    replace (Z.of_nat a <? mr) with true by (symmetry; apply Z.ltb_lt; lia).
    rewrite (IH (S a)); [| lia | exact Hrm |].
    + simpl. replace (a + S n)%nat with (S (a + n)) by lia. reflexivity.
    + rewrite log_log. unfold log; simpl.
      rewrite Hev, <- app_assoc. f_equal.
      rewrite (rounds_S_back req 0 a). reflexivity.
Qed.

(** C2: with [max_retries = n >= 0] and every attempt failing with a
    timeout, a connection error or a status in [500, 600), the retry
    primitive makes exactly [n + 1] requests and raises a
    [LangflowServiceError] whose message names the [n + 1] attempts and ends
    with the text of the last failure; for [n = 3] it reads "4 attempts". *)
Theorem C2_retries_exhausted :
  forall (self : LangflowService) (m u : string) (max_retries : Z)
         (kw : list (string * Json)) (st : State) (fails : nat -> foreign_exn),
    let req := mkRequest m u kw in
    let run := _make_request_with_retry self m u max_retries kw st in
    0 <= max_retries ->
    (forall i : nat, Z.of_nat i <= max_retries ->
       transient (fails i)
       /\ outcome_at (remote st) (events st ++ rounds req 0 i) req
          = inl (Foreign (fails i))) ->
    fst run
    = inl (LangflowServiceError
             ("Failed to make request after " ++ Py.str_int (max_retries + 1)
              ++ " attempts: " ++ str_foreign (fails (Z.to_nat max_retries)))%string)
    /\ requests_of (events (snd run))
       = requests_of (events st) ++ repeat req (Z.to_nat (max_retries + 1))
    /\ (max_retries = 3 ->
        fst run
        = inl (LangflowServiceError
                 ("Failed to make request after 4 attempts: "
                  ++ str_foreign (fails 3%nat))%string)).
Proof.
  intros self m u mr kw st fails req run Hmr Hfail.
  assert (Hrun : run
                 = (inl (LangflowServiceError
                           ("Failed to make request after " ++ Py.str_int (mr + 1)
                            ++ " attempts: "
                            ++ str_foreign (fails (Z.to_nat mr)))%string),
                    mkState (remote st)
                      (events st ++ trace_of req 0 (S (Z.to_nat mr)))
                      (_client (snd (_get_client self st))))).
  { unfold run. rewrite retry_unfold. unfold range.
    replace (Z.to_nat (mr + 1)) with (S (Z.to_nat mr)) by lia.
    destruct (get_client_events self st) as (He & Hr & _).
    rewrite (attempts_exhausted m u mr kw fails (remote st) (events st)
               (fun i Hi => conj (transient_retried _ (proj1 (Hfail i Hi)))
                                 (proj2 (Hfail i Hi)))
               (Z.to_nat mr) 0 None); simpl; try lia; try assumption.
    - reflexivity.
    - rewrite He. now rewrite app_nil_r. }
  rewrite Hrun. simpl. repeat split.
  - rewrite requests_of_app.
    change (rounds req 0 (Z.to_nat mr) ++ [EvRequest req])
      with (trace_of req 0 (S (Z.to_nat mr))).
    rewrite requests_of_trace_of.
    now replace (Z.to_nat (mr + 1)) with (S (Z.to_nat mr)) by lia.
  - intros ->. reflexivity.
Qed.

Lemma C2_retries_exhausted_witness :
  let st := fresh (scripted [] (inl (TimeoutException "Persistent timeout"))) in
  let run := _make_request_with_retry (init default_base_url)
               "GET" "http://test.com" 3 [] st in
  fst run
  = inl (LangflowServiceError
           "Failed to make request after 4 attempts: Persistent timeout")
  /\ List.length (requests_of (events (snd run))) = 4%nat.
Proof.
  intros st run.
  destruct (C2_retries_exhausted (init default_base_url) "GET" "http://test.com"
              3 [] st (fun _ => TimeoutException "Persistent timeout"))
    as (Hmsg & Hreq & _).
  - lia.
  - intros i _. split; [constructor |].
    unfold outcome_at, st, fresh, scripted; simpl.
    now destruct (List.length _).
  - split; [exact Hmsg |]. fold run in Hreq. now rewrite Hreq.
Defined.

(** The first attempt of a call: one request, and what the handlers make of
    its outcome. *)
Lemma retry_first_attempt (self : LangflowService) (m u : string) (mr : Z)
  (kw : list (string * Json)) (st : State) :
  0 <= mr ->
  let req := mkRequest m u kw in
  let st0 := snd (_get_client self st) in
  let st1 := log [EvRequest req] st0 in
  _make_request_with_retry self m u mr kw st
  = match handle (outcome_at (remote st) (events st) req) with
    | Return response => (inr response, st1)
    | Reraise e => (inl e, st1)
    | Retry e =>
        attempts m u mr kw (map Z.of_nat (seq 1 (Z.to_nat mr))) (Some e)
          (if 0 <? mr then log [EvSleep 1] st1 else st1)
    end.
Proof.
  intros Hmr req st0 st1. rewrite retry_unfold. unfold range.
  replace (Z.to_nat (mr + 1)) with (S (Z.to_nat mr)) by lia.
  cbn [seq map]. rewrite attempts_cons.
  destruct (get_client_events self st) as (He & Hr & _).
  rewrite He, Hr. reflexivity.
Qed.

(** C3, as the code has it: timeouts and connection failures are retried; a
    status error is retried exactly when its status is outside [400, 500), so
    every status in [500, 600) is retried; a status in [400, 500) on the
    first attempt ends the call after that one request, with no wait, by a
    [LangflowServiceError] whose message carries the status code and the
    response text; a retried failure on the first attempt is followed, when
    [max_retries >= 1], by a wait of 1 and a second request. *)
Theorem C3_failure_classification :
  forall (self : LangflowService) (m u : string) (max_retries : Z)
         (kw : list (string * Json)) (st : State),
    let req := mkRequest m u kw in
    let run := _make_request_with_retry self m u max_retries kw st in
    (forall msg, retried (TimeoutException msg))
    /\ (forall msg, retried (ConnectError msg))
    /\ (forall msg status_code text,
          retried (HTTPStatusError msg status_code text)
          <-> ~ (400 <= status_code < 500))
    /\ (forall msg status_code text,
          500 <= status_code < 600 -> retried (HTTPStatusError msg status_code text))
    /\ (forall msg status_code text,
          0 <= max_retries ->
          400 <= status_code < 500 ->
          outcome_at (remote st) (events st) req
          = inl (Foreign (HTTPStatusError msg status_code text)) ->
          fst run
          = inl (LangflowServiceError
                   ("Client error " ++ Py.str_int status_code ++ ": " ++ text)%string)
          /\ events (snd run) = events st ++ [EvRequest req])
    /\ (forall e,
          1 <= max_retries ->
          retried e ->
          outcome_at (remote st) (events st) req = inl (Foreign e) ->
          exists rest,
            events (snd run)
            = events st ++ EvRequest req :: EvSleep 1 :: EvRequest req :: rest).
Proof.
  intros self m u mr kw st req run.
  split; [intro; reflexivity |].
  split; [intro; reflexivity |].
  split; [intros; apply status_retried |].
  split; [intros msg code text Hc; apply status_retried; lia |].
  destruct (get_client_events self st) as (He & Hr & _).
  split.
  - intros msg code text Hmr Hc Ho. unfold run.
    rewrite retry_first_attempt by exact Hmr. cbv zeta. fold req. rewrite Ho.
    simpl handle.
    replace (400 <=? code) with true by (symmetry; apply Z.leb_le; lia).
    replace (code <? 500) with true by (symmetry; apply Z.ltb_lt; lia).
    simpl. now rewrite He.
  - intros e Hmr Hret Ho. unfold run.
    rewrite retry_first_attempt by lia. cbv zeta. fold req. rewrite Ho, Hret.
    replace (0 <? mr) with true by (symmetry; apply Z.ltb_lt; lia).
    destruct (attempts_trace m u mr kw (Z.to_nat mr) 1 (Some e)
                (log [EvSleep 1] (log [EvRequest req] (snd (_get_client self st)))))
      as (k & Hk & Hk1 & Hs); [right; lia |].
    rewrite Hs, !log_log. simpl. rewrite He.
    destruct k as [| k]; [lia |].
    destruct k as [| k].
    + exists []. reflexivity.
    + exists (EvSleep (2 ^ Z.of_nat 1) :: trace_of req 2 (S k)).
      rewrite trace_of_S_S. reflexivity.
Qed.

Lemma C3_failure_classification_witness :
  let bad := Response.mk 400 "Bad Request"
               (Some (HTTPStatusError "Bad Request" 400 "Bad Request"))
               (inl (ValueError "no body")) in
  let st := fresh (scripted [] (inr bad)) in
  let run := _make_request_with_retry (init default_base_url)
               "GET" "http://test.com" 3 [] st in
  fst run = inl (LangflowServiceError "Client error 400: Bad Request")
  /\ requests_of (events (snd run)) = [mkRequest "GET" "http://test.com" []]
  /\ sleeps_of (events (snd run)) = [].
Proof.
  intros bad st run.
  destruct (C3_failure_classification (init default_base_url) "GET"
              "http://test.com" 3 [] st) as (_ & _ & _ & _ & H4 & _).
  destruct (H4 "Bad Request" 400 "Bad Request") as (Hres & Hev).
  - lia.
  - lia.
  - reflexivity.
  - fold run in Hres, Hev. rewrite Hev.
    split; [exact Hres | split; reflexivity].
Defined.

(** C3 as stated fails: a status error with status 302, which is outside
    [500, 600), is retried; the call below waits 1 and sends a second
    request, which succeeds. *)
Lemma C3_status_302_is_retried :
  let redirect := Response.mk 302 ""
                    (Some (HTTPStatusError "Redirect response" 302 ""))
                    (inl (ValueError "no body")) in
  let st := fresh (scripted [inr redirect] (inr (ok_response JNull))) in
  let run := _make_request_with_retry (init default_base_url)
               "GET" "http://test.com" 3 [] st in
  ~ (forall msg status_code text,
       retried (HTTPStatusError msg status_code text) -> 500 <= status_code < 600)
  /\ fst run = inr (ok_response JNull)
  /\ requests_of (events (snd run))
     = [mkRequest "GET" "http://test.com" []; mkRequest "GET" "http://test.com" []]
  /\ sleeps_of (events (snd run)) = [1].
Proof.
  split; [| repeat split].
  intro H. specialize (H "Redirect response" 302 "" eq_refl). lia.
Qed.

(** C4: a call of the retry primitive leaves behind [k] requests, with a
    wait of exactly [2 ^ i] after the failed attempt of index [i] (counted
    from 0) and no wait after the last attempt; when the first attempt times
    out and the second succeeds, there are exactly two requests and one wait,
    of 1. *)
Theorem C4_exponential_backoff :
  forall (self : LangflowService) (m u : string) (max_retries : Z)
         (kw : list (string * Json)) (st : State),
    let req := mkRequest m u kw in
    let run := _make_request_with_retry self m u max_retries kw st in
    (exists k : nat,
        (k <= Z.to_nat (max_retries + 1))%nat
        /\ (0 <= max_retries -> (1 <= k)%nat)
        /\ events (snd run) = events st ++ trace_of req 0 k
        /\ sleeps_of (trace_of req 0 k)
           = map (fun i => 2 ^ Z.of_nat i) (seq 0 (pred k))
        /\ requests_of (trace_of req 0 k) = repeat req k)
    /\ (forall msg response,
          1 <= max_retries ->
          outcome_at (remote st) (events st) req
          = inl (Foreign (TimeoutException msg)) ->
          outcome_at (remote st) (events st ++ [EvRequest req; EvSleep 1]) req
          = inr response ->
          fst run = inr response
          /\ events (snd run) = events st ++ [EvRequest req; EvSleep 1; EvRequest req]).
Proof.
  intros self m u mr kw st req run. split.
  - destruct (retry_trace self m u mr kw st) as (k & Hk & Hk1 & Hev).
    exists k. fold req run in Hev.
    repeat split; auto using sleeps_of_trace_of, requests_of_trace_of.
  - intros msg response Hmr Ho1 Ho2.
    destruct (get_client_events self st) as (He & Hr & _).
    assert (Hrun : run
                   = (inr response,
                      log [EvRequest req; EvSleep 1; EvRequest req]
                        (snd (_get_client self st)))).
    { unfold run. rewrite retry_first_attempt by lia. cbv zeta. fold req.
      rewrite Ho1. simpl handle.
      replace (0 <? mr) with true by (symmetry; apply Z.ltb_lt; lia).
      replace (Z.to_nat mr) with (S (Z.to_nat (mr - 1))) by lia.
      cbn [seq map]. rewrite attempts_cons. cbv zeta.
      rewrite !log_log. cbn [log remote events app].
      rewrite Hr, He. fold req. rewrite Ho2. reflexivity. }
    rewrite Hrun. cbn [fst snd log events]. now rewrite He.
Qed.

Lemma C4_exponential_backoff_witness :
  let st := fresh (scripted [inl (TimeoutException "Timeout")]
                     (inr (ok_response JNull))) in
  let run := _make_request_with_retry (init default_base_url)
               "GET" "http://test.com" 3 [] st in
  fst run = inr (ok_response JNull)
  /\ List.length (requests_of (events (snd run))) = 2%nat
  /\ sleeps_of (events (snd run)) = [1].
Proof.
  intros st run.
  destruct (C4_exponential_backoff (init default_base_url) "GET"
              "http://test.com" 3 [] st) as (_ & H).
  destruct (H "Timeout" (ok_response JNull)) as (Hres & Hev).
  - lia.
  - reflexivity.
  - reflexivity.
  - fold run in Hres, Hev. rewrite Hev.
    split; [exact Hres | split; reflexivity].
Defined.

(** ** Listing flows *)

Section Listing.

Variable NFKC : string -> string.
Variable _check_bracketed_host : string -> option string.
Variable model_validate : list (string * Json) -> string + FlowResponse.t.

(** The operations at the parameters of this section. *)
Local Abbreviation get_flows' := (get_flows NFKC _check_bracketed_host model_validate).
Local Abbreviation get_flows_try' := (get_flows_try NFKC _check_bracketed_host model_validate).
Local Abbreviation urljoin' := (urljoin NFKC _check_bracketed_host).
Local Abbreviation collect' := (collect model_validate).
Local Abbreviation new' := (FlowResponse_new model_validate).
Local Abbreviation validated' := (validated model_validate).
Local Abbreviation valid' := (valid model_validate).

Lemma get_flows_wrapped (self : LangflowService) (st : State) :
  get_flows' self st
  = (wrapped (fst (get_flows_try' self st)), snd (get_flows_try' self st)).
Proof.
  unfold get_flows, bind, catch.
  destruct (get_flows_try _ _ _ self st) as [[e | flows] st']; simpl;
    [| reflexivity].
  now destruct (is_service_error e).
Qed.

(** The body of [get_flows] once the request has returned a response whose
    body parses. *)
Lemma get_flows_try_parsed (self : LangflowService) (st st' : State)
  (url : string) (response : Response.t) (body : Json) :
  urljoin' (base_url self) "/api/v1/flows/" = inr url ->
  _make_request_with_retry self "GET" url 3 flows_kwargs st = (inr response, st') ->
  Response.json response = inr body ->
  get_flows_try' self st
  = match body with
    | JDict d =>
        match lookup "flows" d with
        | Some v =>
            match iter v with
            | inr items => (collect' items [], st')
            | inl e => (inl (Foreign e), st')
            end
        | None => (inl (LangflowServiceError
                          ("Unexpected response format: " ++ str_type body)%string), st')
        end
    | JList l => (collect' l [], st')
    | _ => (inl (LangflowServiceError
                   ("Unexpected response format: " ++ str_type body)%string), st')
    end.
Proof.
  intros Hurl Hreq Hjson.
  unfold get_flows_try.
  rewrite Hurl. unfold lift at 1. unfold bind at 1. unfold ret at 1.
  fold flows_kwargs. unfold bind at 1. rewrite Hreq.
  rewrite Hjson. unfold lift at 1. unfold bind at 1. unfold ret at 1.
  unfold bind at 1.
  destruct body as [| b | n | f | s | l | d]; try reflexivity.
  destruct (lookup "flows" d) as [v |]; [| reflexivity].
  unfold ret at 1. unfold bind, lift.
  destruct (iter v) as [e | items]; reflexivity.
Qed.

Lemma new_record (d : list (string * Json)) :
  new' (JDict d)
  = match model_validate d with
    | inr flow => inr flow
    | inl msg => inl (ValidationError msg)
    end.
Proof. reflexivity. Qed.

Lemma new_not_record (v : Json) :
  is_dict v = false ->
  exists msg, new' v = inl (TypeError msg).
Proof.
  destruct v; intro H; try discriminate H; eexists; reflexivity.
Qed.

(** On records, the loop appends the validated ones to what it holds. *)
Lemma collect_records (records : list Json) :
  forallb is_dict records = true ->
  forall flows, collect' records flows = inr (flows ++ validated' records).
Proof.
  induction records as [| record records IH]; intros Hd flows.
  - simpl. now rewrite app_nil_r.
  - simpl in Hd. apply andb_prop in Hd as [Hr Hd].
    destruct record as [| | | | | | d]; try discriminate Hr.
    cbn [collect]. rewrite new_record.
    cbn [validated flat_map]. fold (validated' records).
    destruct (model_validate d) as [msg | flow].
    + rewrite IH by exact Hd. reflexivity.
    + rewrite IH by exact Hd. now rewrite <- app_assoc.
Qed.

(** An element that is not a record stops the loop with a [TypeError]. *)
Lemma collect_not_records (items : list Json) :
  forallb is_dict items = false ->
  forall flows, exists msg, collect' items flows = inl (Foreign (TypeError msg)).
Proof.
  induction items as [| item items IH]; intros Hd flows; [discriminate Hd |].
  simpl in Hd. cbn [collect].
  destruct (is_dict item) eqn:Hitem.
  - destruct item as [| | | | | | d]; try discriminate Hitem.
    rewrite new_record. simpl in Hd.
    destruct (model_validate d) as [msg | flow]; apply IH; exact Hd.
  - destruct (new_not_record item Hitem) as [msg Hmsg]. rewrite Hmsg. eauto.
Qed.

Lemma validated_app (l1 l2 : list Json) :
  validated' (l1 ++ l2) = validated' l1 ++ validated' l2.
Proof. unfold validated. apply flat_map_app. Qed.

Lemma validated_length (records : list Json) :
  List.length (validated' records) = List.length (filter valid' records).
Proof.
  induction records as [| record records IH]; [reflexivity |].
  cbn [validated flat_map filter]. fold (validated' records).
  destruct record as [| | | | | | d]; try exact IH.
  unfold valid at 1. destruct (model_validate d); simpl; congruence.
Qed.

(** What [get_flows] returns for a body that holds the list [records],
    bare or under the key [flows]. *)
Lemma get_flows_of_list (self : LangflowService) (st st' : State)
  (url : string) (response : Response.t) (body : Json) (l : list Json) :
  urljoin' (base_url self) "/api/v1/flows/" = inr url ->
  _make_request_with_retry self "GET" url 3 flows_kwargs st = (inr response, st') ->
  Response.json response = inr body ->
  (body = JList l \/ exists d, body = JDict d /\ lookup "flows" d = Some (JList l)) ->
  get_flows' self st = (wrapped (collect' l []), st').
Proof.
  intros Hurl Hreq Hjson Hbody. rewrite get_flows_wrapped.
  rewrite (get_flows_try_parsed self st st' url response body Hurl Hreq Hjson).
  destruct Hbody as [-> | (d & -> & Hd)]; [reflexivity |].
  rewrite Hd. reflexivity.
Qed.

(** C5, as the code has it: when the platform answers with a list, bare or
    under the key [flows], whose elements are all objects, [get_flows]
    returns the records that validate, parsed, one each and in the order
    received; a record that fails validation is skipped, the call still
    succeeds, and leaving that record out of the list gives the same
    result. An element that is not an object is not skipped: it makes the
    whole call fail with a [LangflowServiceError] that begins
    "Failed to fetch flows". *)
Theorem C5_get_flows_keeps_valid_records :
  forall (self : LangflowService) (st st' : State) (url : string)
         (response : Response.t) (body : Json) (records : list Json),
    urljoin' (base_url self) "/api/v1/flows/" = inr url ->
    _make_request_with_retry self "GET" url 3 flows_kwargs st = (inr response, st') ->
    Response.json response = inr body ->
    (body = JList records
     \/ exists d, body = JDict d /\ lookup "flows" d = Some (JList records)) ->
    (forallb is_dict records = true ->
     get_flows' self st = (inr (validated' records), st')
     /\ List.length (validated' records) = List.length (filter valid' records)
     /\ (forall before record after,
           records = before ++ record :: after ->
           valid' record = false ->
           validated' records = validated' (before ++ after)))
    /\ (forallb is_dict records = false ->
        exists msg,
          get_flows' self st
          = (inl (LangflowServiceError ("Failed to fetch flows: " ++ msg)%string),
             st')).
Proof.
  intros self st st' url response body records Hurl Hreq Hjson Hbody.
  rewrite (get_flows_of_list self st st' url response body records
             Hurl Hreq Hjson Hbody).
  split.
  - intro Hrec. split; [| split].
    + rewrite collect_records by exact Hrec. reflexivity.
    + apply validated_length.
    + intros before record after -> Hbad.
      rewrite !validated_app. f_equal.
      cbn [validated flat_map]. fold (validated' after).
      destruct record as [| | | | | | d]; try reflexivity.
      unfold valid in Hbad. destruct (model_validate d); [reflexivity | discriminate].
  - intro Hrec. destruct (collect_not_records records Hrec []) as [msg Hmsg].
    rewrite Hmsg. exists msg. reflexivity.
Qed.

(** C6: the bare list and the same list under the key [flows] give the same
    result. *)
Theorem C6_get_flows_bare_or_wrapped :
  forall (self : LangflowService) (st1 st1' st2 st2' : State) (url : string)
         (response1 response2 : Response.t) (l : list Json),
    urljoin' (base_url self) "/api/v1/flows/" = inr url ->
    _make_request_with_retry self "GET" url 3 flows_kwargs st1 = (inr response1, st1') ->
    _make_request_with_retry self "GET" url 3 flows_kwargs st2 = (inr response2, st2') ->
    Response.json response1 = inr (JList l) ->
    Response.json response2 = inr (JDict [("flows", JList l)]) ->
    fst (get_flows' self st1) = fst (get_flows' self st2).
Proof.
  intros self st1 st1' st2 st2' url response1 response2 l Hurl H1 H2 Hj1 Hj2.
  rewrite (get_flows_of_list self st1 st1' url response1 (JList l) l Hurl H1 Hj1)
    by (left; reflexivity).
  rewrite (get_flows_of_list self st2 st2' url response2
             (JDict [("flows", JList l)]) l Hurl H2 Hj2)
    by (right; eexists; split; reflexivity).
  reflexivity.
Qed.

(** C8: a parsed body that is neither a list nor an object with the key
    [flows] makes [get_flows] raise the unexpected-format
    [LangflowServiceError]; nothing is returned and the validator plays no
    part in the result. *)
Theorem C8_get_flows_unexpected_shape :
  forall (self : LangflowService) (st st' : State) (url : string)
         (response : Response.t) (body : Json),
    urljoin' (base_url self) "/api/v1/flows/" = inr url ->
    _make_request_with_retry self "GET" url 3 flows_kwargs st = (inr response, st') ->
    Response.json response = inr body ->
    is_list body = false ->
    (forall d, body = JDict d -> lookup "flows" d = None) ->
    get_flows' self st
    = (inl (LangflowServiceError
              ("Unexpected response format: " ++ str_type body)%string), st').
Proof.
  intros self st st' url response body Hurl Hreq Hjson Hlist Hdict.
  rewrite get_flows_wrapped.
  rewrite (get_flows_try_parsed self st st' url response body Hurl Hreq Hjson).
  destruct body as [| b | n | f | s | l | d]; try reflexivity.
  - discriminate Hlist.
  - rewrite (Hdict d eq_refl). reflexivity.
Qed.

(** C10, as the code has it: under the key [flows], a value that is not a
    list of records passes the shape check; for the empty string and the
    empty object the loop has nothing to go through and [get_flows] returns
    the empty list; for every other such value the loop fails, and that
    failure is raised as a [LangflowServiceError] whose message begins
    "Failed to fetch flows". *)
Theorem C10_get_flows_flows_key_not_a_list :
  forall (self : LangflowService) (st st' : State) (url : string)
         (response : Response.t) (d : list (string * Json)) (v : Json),
    urljoin' (base_url self) "/api/v1/flows/" = inr url ->
    _make_request_with_retry self "GET" url 3 flows_kwargs st = (inr response, st') ->
    Response.json response = inr (JDict d) ->
    lookup "flows" d = Some v ->
    record_list v = false ->
    (v = JStr "" \/ v = JDict [] -> get_flows' self st = (inr [], st'))
    /\ (v <> JStr "" ->
        v <> JDict [] ->
        exists msg,
          get_flows' self st
          = (inl (LangflowServiceError ("Failed to fetch flows: " ++ msg)%string),
             st')).
Proof.
  intros self st st' url response d v Hurl Hreq Hjson Hv Hrl.
  rewrite get_flows_wrapped.
  rewrite (get_flows_try_parsed self st st' url response (JDict d) Hurl Hreq Hjson).
  rewrite Hv. split.
  - intros [-> | ->]; reflexivity.
  - intros Hs Hd.
    destruct v as [| b | n | f | s | l | d']; try (eexists; reflexivity).
    + destruct s as [| a s]; [contradiction Hs; reflexivity |].
      eexists; reflexivity.
    + simpl in Hrl. destruct (collect_not_records l Hrl []) as [msg Hmsg].
      cbn [iter]. rewrite Hmsg. eexists; reflexivity.
    + destruct d' as [| [k x] d']; [contradiction Hd; reflexivity |].
      eexists; reflexivity.
Qed.

End Listing.

(** ** The URL of the run endpoint *)

Open Scope string_scope.

Lemma contains_forallb (p : ascii -> bool) (c : ascii) (s : string) :
  Py.forallb p s = true -> p c = false -> Py.contains c s = false.
Proof.
  intros Hs Hc. induction s as [| a s IH]; [reflexivity |].
  simpl in *. apply andb_prop in Hs as [Ha Hs].
  destruct (Ascii.eqb_spec a c) as [-> | _]; [congruence | auto].
Qed.

Lemma remove_absent (c : ascii) (s : string) :
  Py.contains c s = false -> Py.remove c s = s.
Proof.
  induction s as [| a s IH]; [reflexivity |]. simpl.
  destruct (Ascii.eqb a c); [discriminate |]. intro H. now rewrite IH.
Qed.

Lemma find_absent (c : ascii) (s : string) :
  Py.contains c s = false -> Py.find c s = None.
Proof.
  induction s as [| a s IH]; [reflexivity |]. simpl.
  destruct (Ascii.eqb a c); [discriminate |]. intro H. now rewrite IH.
Qed.

Lemma split_absent (c : ascii) (s : string) :
  Py.contains c s = false -> Py.split c s = [s].
Proof.
  induction s as [| a s IH]; [reflexivity |]. simpl.
  destruct (Ascii.eqb a c); [discriminate |]. intro H. now rewrite IH.
Qed.

Lemma take_length (s : string) : Py.take (String.length s) s = s.
Proof. induction s as [| a s IH]; [reflexivity |]. simpl. now rewrite IH. Qed.

Lemma drop_length (s : string) : Py.drop (String.length s) s = "".
Proof. induction s as [| a s IH]; [reflexivity |]. exact IH. Qed.

Lemma forallb_weaken (p q : ascii -> bool) (s : string) :
  (forall a, p a = true -> q a = true) ->
  Py.forallb p s = true -> Py.forallb q s = true.
Proof.
  intros Hpq. induction s as [| a s IH]; [reflexivity |]. simpl.
  intro H. apply andb_prop in H as [Ha Hs]. now rewrite (Hpq a Ha), IH.
Qed.

Lemma host_char_ascii (a : ascii) : host_char a = true -> Py.is_ascii_char a = true.
Proof.
  unfold host_char, Py.is_ascii_char, Py.is_lower, Py.is_upper, Py.is_digit.
  intro H.
  repeat (apply orb_prop in H as [H | H]);
    try (apply andb_prop in H as [_ H]; apply Nat.leb_le in H; apply Nat.ltb_lt; lia);
    apply Ascii.eqb_eq in H; subst a; reflexivity.
Qed.

Section RunUrl.

Variable NFKC : string -> string.
Variable _check_bracketed_host : string -> option string.

Lemma splitnetloc_host (host : string) :
  Py.forallb host_char host = true ->
  UrlParse._splitnetloc ("//" ++ host) 2 = (host, "").
Proof.
  intro Hh.
  unfold UrlParse._splitnetloc, Py.find_from. cbn [fold_left].
  change (Py.drop 2 ("//" ++ host)) with host.
  change (String.length ("//" ++ host)) with (S (S (String.length host))).
  cbn [Nat.ltb Nat.leb].
  rewrite !find_absent by (apply (contains_forallb host_char); [exact Hh | reflexivity]).
  cbn [option_map Nat.sub]. 
  rewrite Nat.sub_0_r, take_length.
  change (Py.drop (S (S (String.length host))) ("//" ++ host))
    with (Py.drop (String.length host) host).
  now rewrite drop_length.
Qed.

Lemma remove_unsafe_plain (p : ascii -> bool) (s : string) :
  p "009"%char = false -> p "013"%char = false -> p "010"%char = false ->
  Py.forallb p s = true -> UrlParse.remove_unsafe s = s.
Proof.
  intros H9 H13 H10 Hs. unfold UrlParse.remove_unsafe.
  rewrite (remove_absent "009") by (now apply (contains_forallb p)).
  rewrite (remove_absent "013") by (now apply (contains_forallb p)).
  now rewrite (remove_absent "010") by (now apply (contains_forallb p)).
Qed.

Lemma urlsplit_origin (sch host : string) :
  sch = "http" \/ sch = "https" ->
  Py.forallb host_char host = true ->
  UrlParse.urlsplit NFKC _check_bracketed_host (sch ++ "://" ++ host) ""
  = inr (UrlParse.mkSplit sch host "" "" "").
Proof.
  intros Hsch Hh.
  assert (Hun : UrlParse.remove_unsafe host = host)
    by (now apply (remove_unsafe_plain host_char)).
  assert (Hc : forall c, host_char c = false -> Py.contains c host = false)
    by (intros c Hc; now apply (contains_forallb host_char)).
  assert (Hascii : Py.isascii host = true)
    by (apply (forallb_weaken host_char); [apply host_char_ascii | exact Hh]).
  unfold UrlParse.urlsplit.
  destruct Hsch as [-> | ->].
  - change (Py.lstrip UrlParse.c0_control_or_space ("http" ++ "://" ++ host))
      with ("http://" ++ host).
    change (UrlParse.remove_unsafe ("http://" ++ host))
      with ("http://" ++ UrlParse.remove_unsafe host).
    rewrite Hun.
    change (Py.find ":" ("http://" ++ host)) with (Some 4%nat).
    cbv beta iota zeta delta [append].
    match goal with
    | |- context [Py.is_ascii_alpha ?a && Py.forallb ?p ?s] =>
        change (Py.is_ascii_alpha a && Py.forallb p s) with true
    end.
    cbv beta iota zeta.
    cbn [Py.drop Py.take append String.eqb Ascii.eqb Bool.eqb].
    change (String "/" (String "/" host)) with ("//" ++ host).
    rewrite splitnetloc_host by exact Hh.
    rewrite !Hc by reflexivity.
    cbn [andb orb negb Py.contains].
    unfold UrlParse._checknetloc. rewrite Hascii, orb_true_r. reflexivity.
  - change (Py.lstrip UrlParse.c0_control_or_space ("https" ++ "://" ++ host))
      with ("https://" ++ host).
    change (UrlParse.remove_unsafe ("https://" ++ host))
      with ("https://" ++ UrlParse.remove_unsafe host).
    rewrite Hun.
    change (Py.find ":" ("https://" ++ host)) with (Some 5%nat).
    cbv beta iota zeta delta [append].
    match goal with
    | |- context [Py.is_ascii_alpha ?a && Py.forallb ?p ?s] =>
        change (Py.is_ascii_alpha a && Py.forallb p s) with true
    end.
    cbv beta iota zeta.
    cbn [Py.drop Py.take append String.eqb Ascii.eqb Bool.eqb].
    change (String "/" (String "/" host)) with ("//" ++ host).
    rewrite splitnetloc_host by exact Hh.
    rewrite !Hc by reflexivity.
    cbn [andb orb negb Py.contains].
    unfold UrlParse._checknetloc. rewrite Hascii, orb_true_r. reflexivity.
Qed.

Lemma id_char_not_dots (fid : string) :
  Py.forallb id_char fid = true ->
  (fid =? "..")%string = false /\ (fid =? ".")%string = false.
Proof.
  destruct fid as [| a s]; [split; reflexivity |].
  simpl. intro H. apply andb_prop in H as [Ha _].
  destruct (Ascii.eqb_spec a ".") as [-> | _]; [discriminate Ha |].
  split; reflexivity.
Qed.

Lemma urlsplit_run_path (sch fid : string) :
  sch = "http" \/ sch = "https" ->
  Py.forallb id_char fid = true ->
  UrlParse.urlsplit NFKC _check_bracketed_host ("/api/v1/run/" ++ fid) sch
  = inr (UrlParse.mkSplit sch "" ("/api/v1/run/" ++ fid) "" "").
Proof.
  intros Hsch Hf.
  assert (Hun : UrlParse.remove_unsafe fid = fid)
    by (now apply (remove_unsafe_plain id_char)).
  assert (Hc : forall c, id_char c = false -> Py.contains c fid = false)
    by (intros c Hc; now apply (contains_forallb id_char)).
  unfold UrlParse.urlsplit.
  change (Py.lstrip UrlParse.c0_control_or_space ("/api/v1/run/" ++ fid))
    with ("/api/v1/run/" ++ fid).
  change (UrlParse.remove_unsafe ("/api/v1/run/" ++ fid))
    with ("/api/v1/run/" ++ UrlParse.remove_unsafe fid).
  rewrite Hun.
  replace (UrlParse.remove_unsafe (Py.strip UrlParse.c0_control_or_space sch))
    with sch by (destruct Hsch as [-> | ->]; reflexivity).
  cbn [Py.find append Ascii.eqb Bool.eqb].
  rewrite (find_absent ":" fid) by (apply Hc; reflexivity).
  cbn [option_map].
  do 3 (cbv beta iota zeta;
        cbn [Py.contains Py.take String.eqb Ascii.eqb Bool.eqb andb orb negb];
        rewrite ?Hc by reflexivity).
  reflexivity.
Qed.

Lemma urljoin_origin (sch host fid : string) :
  sch = "http" \/ sch = "https" ->
  Py.forallb host_char host = true ->
  Py.forallb id_char fid = true ->
  UrlParse.urljoin NFKC _check_bracketed_host (sch ++ "://" ++ host) ("/api/v1/run/" ++ fid)
  = inr ((sch ++ "://" ++ host) ++ "/api/v1/run/" ++ fid).
Proof.
  intros Hsch Hh Hf.
  assert (Hc : forall c, id_char c = false -> Py.contains c fid = false)
    by (intros c Hc; now apply (contains_forallb id_char)).
  destruct (id_char_not_dots fid Hf) as [Hdd Hd].
  unfold UrlParse.urljoin, UrlParse.urlparse.
  rewrite (urlsplit_origin sch host Hsch Hh).
  cbv beta iota zeta.
  destruct Hsch as [-> | ->];
    (cbn [UrlParse.mem UrlParse.uses_params existsb Py.contains append
          String.eqb Ascii.eqb Bool.eqb andb orb negb];
     cbv beta iota zeta;
     rewrite (urlsplit_run_path _ fid) by (auto);
     cbv beta iota zeta;
     cbn [UrlParse.mem UrlParse.uses_params UrlParse.uses_relative
          UrlParse.uses_netloc existsb Py.contains Py.take Py.split append
          String.eqb Ascii.eqb Bool.eqb andb orb negb];
     rewrite (Hc ";"%char) by reflexivity;
     cbv beta iota zeta;
     cbn [Py.take Py.split append String.eqb Ascii.eqb Bool.eqb andb orb negb];
     rewrite (split_absent "/" fid) by (apply Hc; reflexivity);
     cbv beta iota zeta;
     unfold UrlParse.resolve_step;
     cbn [fold_left removelast app last UrlParse.mem existsb
          String.eqb Ascii.eqb Bool.eqb andb orb negb];
     rewrite !Hdd, !Hd;
     cbn [app orb Py.join concat append String.eqb Ascii.eqb Bool.eqb];
     unfold UrlParse.urlunparse, UrlParse.urlunsplit;
     cbn [UrlParse.mem UrlParse.uses_netloc existsb Py.take append
          String.eqb Ascii.eqb Bool.eqb andb orb negb];
     rewrite orb_true_r;
     reflexivity).
Qed.

End RunUrl.

Open Scope Z_scope.
Open Scope list_scope.

(** ** Executing a flow *)

Lemma outcome_at_foreign (rm : Remote) (evs : list Event) (req : Request) (e : exn) :
  outcome_at rm evs req = inl e -> exists f, e = Foreign f.
Proof.
  unfold outcome_at. destruct (rm evs req) as [f | response].
  - intro H. injection H as <-. eauto.
  - destruct (Response.raise_for_status response) as [f |]; [| discriminate].
    intro H. injection H as <-. eauto.
Qed.

(** The only service error that the handlers raise has a non-empty text. *)
Lemma handle_service_error (rm : Remote) (evs : list Event) (req : Request)
  (msg : string) :
  handle (outcome_at rm evs req) = Reraise (LangflowServiceError msg) ->
  msg <> ""%string.
Proof.
  destruct (outcome_at rm evs req) as [e | response] eqn:Ho; [| discriminate].
  destruct (outcome_at_foreign rm evs req e Ho) as [f ->].
  destruct f as [m | m | m code text | m | m | m | m]; simpl; try discriminate.
  destruct ((400 <=? code) && (code <? 500)); [| discriminate].
  intro H. injection H as <-. discriminate.
Qed.

Lemma attempts_service_error (m u : string) (mr : Z) (kw : list (string * Json))
  (msg : string) :
  forall (todo : list Z) (last : option foreign_exn) (st : State),
    fst (attempts m u mr kw todo last st) = inl (LangflowServiceError msg) ->
    msg <> ""%string.
Proof.
  induction todo as [| a todo IH]; intros last st.
  - simpl. intro H. injection H as <-. discriminate.
  - rewrite attempts_cons. cbv zeta.
    destruct (handle _) as [response | e | e] eqn:Hh.
    + discriminate.
    + simpl. intro H. injection H as ->.
      exact (handle_service_error _ _ _ _ Hh).
    + apply IH.
Qed.

(** A service error out of the retry primitive has a non-empty text. *)
Lemma retry_service_error (self : LangflowService) (m u : string) (mr : Z)
  (kw : list (string * Json)) (st : State) (msg : string) :
  fst (_make_request_with_retry self m u mr kw st) = inl (LangflowServiceError msg) ->
  msg <> ""%string.
Proof. rewrite retry_unfold. apply attempts_service_error. Qed.

Section Execution.

Variable NFKC : string -> string.
Variable _check_bracketed_host : string -> option string.

(** The operations at the parameters of this section. *)
Local Abbreviation execute_flow' := (execute_flow NFKC _check_bracketed_host).
Local Abbreviation execute_flow_try' := (execute_flow_try NFKC _check_bracketed_host).
Local Abbreviation urljoin' := (urljoin NFKC _check_bracketed_host).

(** The [try] body of [execute_flow], by the outcome of each of its steps. *)
Lemma execute_flow_try_run (self : LangflowService) (flow_id : string)
  (rq : FlowExecutionRequest.t) (st : State) :
  execute_flow_try' self flow_id rq st
  = match urljoin' (base_url self) ("/api/v1/run/" ++ flow_id)%string with
    | inl e => (inl (Foreign e), st)
    | inr url =>
        match _make_request_with_retry self "POST" url 3 (run_kwargs rq) st with
        | (inl e, st') => (inl e, st')
        | (inr response, st') =>
            match Response.json response with
            | inl e => (inl (Foreign e), st')
            | inr body => (inr (FlowExecutionResponse.mk true body None), st')
            end
        end
    end.
Proof.
  unfold execute_flow_try. fold (run_kwargs rq).
  destruct (urljoin' _ _) as [e | url]; [reflexivity |].
  unfold lift at 1. unfold bind at 1. unfold ret at 1. unfold bind at 1.
  destruct (_make_request_with_retry self "POST" url 3 (run_kwargs rq) st)
    as [[e | response] st']; [reflexivity |].
  destruct (Response.json response) as [e | body]; reflexivity.
Qed.

(** [execute_flow], by the outcome of its [try] body. *)
Lemma execute_flow_run (self : LangflowService) (flow_id : string)
  (rq : FlowExecutionRequest.t) (st : State) :
  execute_flow' self flow_id rq st
  = (match fst (execute_flow_try' self flow_id rq st) with
     | inr response => inr response
     | inl (LangflowServiceError msg) =>
         inr (FlowExecutionResponse.mk false JNull (Some msg))
     | inl (Foreign f) =>
         inr (FlowExecutionResponse.mk false JNull
                (Some ("Unexpected error during flow execution: "
                       ++ str_foreign f)%string))
     end,
     snd (execute_flow_try' self flow_id rq st)).
Proof.
  unfold execute_flow, bind, catch.
  destruct (execute_flow_try _ _ self flow_id rq st) as [[[msg | f] | response] st'];
    reflexivity.
Qed.

(** A service error out of the [try] body has a non-empty text. *)
Lemma execute_flow_try_service_error (self : LangflowService) (flow_id : string)
  (rq : FlowExecutionRequest.t) (st : State) (msg : string) :
  fst (execute_flow_try' self flow_id rq st) = inl (LangflowServiceError msg) ->
  msg <> ""%string.
Proof.
  rewrite execute_flow_try_run.
  destruct (urljoin' _ _) as [e | url]; [discriminate |].
  destruct (_make_request_with_retry self "POST" url 3 (run_kwargs rq) st)
    as [[e | response] st'] eqn:Hr.
  - simpl. intro H. injection H as ->.
    apply (retry_service_error self "POST" url 3 (run_kwargs rq) st).
    now rewrite Hr.
  - destruct (Response.json response); discriminate.
Qed.

(** C1: [execute_flow] never raises; when the request made through the
    retry primitive fails, with a [LangflowServiceError] or with any other
    exception, it returns a response with [success = false], [result = None]
    and a non-empty error text: the text of the service error, or the text of
    the other exception after "Unexpected error during flow execution: ". *)
Theorem C1_execute_flow_reports_failure :
  forall (self : LangflowService) (flow_id : string)
         (rq : FlowExecutionRequest.t) (st : State),
    (exists response, fst (execute_flow' self flow_id rq st) = inr response)
    /\ (forall url e st',
          urljoin' (base_url self) ("/api/v1/run/" ++ flow_id)%string = inr url ->
          _make_request_with_retry self "POST" url 3 (run_kwargs rq) st = (inl e, st') ->
          exists msg,
            execute_flow' self flow_id rq st
            = (inr (FlowExecutionResponse.mk false JNull (Some msg)), st')
            /\ msg <> ""%string
            /\ msg = match e with
                     | LangflowServiceError m => m
                     | Foreign f =>
                         ("Unexpected error during flow execution: "
                          ++ str_foreign f)%string
                     end).
Proof.
  intros self flow_id rq st. split.
  - rewrite execute_flow_run. cbn [fst].
    destruct (fst (execute_flow_try' self flow_id rq st)) as [[msg | f] | response];
      eauto.
  - intros url e st' Hurl Hreq.
    assert (Htry : execute_flow_try' self flow_id rq st = (inl e, st'))
      by (rewrite execute_flow_try_run, Hurl, Hreq; reflexivity).
    rewrite execute_flow_run, Htry. cbn [fst snd].
    destruct e as [msg | f].
    + exists msg. repeat split.
      apply (execute_flow_try_service_error self flow_id rq st).
      now rewrite Htry.
    + eexists. repeat split. discriminate.
Qed.

(** C7, as the code has it: [execute_flow] always returns a response; with
    [success = true] the error is [None] and the result is the parsed body
    of the response, whatever that body is (a JSON [null] body gives the
    result [None]); with [success = false] the result is [None] and the
    error is a non-empty text. *)
Theorem C7_execution_result_invariant :
  forall (self : LangflowService) (flow_id : string)
         (rq : FlowExecutionRequest.t) (st : State),
  exists r,
    fst (execute_flow' self flow_id rq st) = inr r
    /\ ((FlowExecutionResponse.success r = true
         /\ FlowExecutionResponse.error r = None
         /\ exists url response st',
              urljoin' (base_url self) ("/api/v1/run/" ++ flow_id)%string = inr url
              /\ _make_request_with_retry self "POST" url 3 (run_kwargs rq) st
                 = (inr response, st')
              /\ Response.json response = inr (FlowExecutionResponse.result r))
        \/ (FlowExecutionResponse.success r = false
            /\ FlowExecutionResponse.result r = JNull
            /\ exists msg,
                 FlowExecutionResponse.error r = Some msg /\ msg <> ""%string)).
Proof.
  intros self flow_id rq st. rewrite execute_flow_run. cbn [fst].
  destruct (fst (execute_flow_try' self flow_id rq st))
    as [[msg | f] | r] eqn:Htry.
  - eexists. split; [reflexivity |]. right. cbn.
    repeat split. exists msg. split; [reflexivity |].
    exact (execute_flow_try_service_error self flow_id rq st msg Htry).
  - eexists. split; [reflexivity |]. right. cbn.
    repeat split. eexists. split; [reflexivity | discriminate].
  - exists r. split; [reflexivity |]. left.
    rewrite execute_flow_try_run in Htry.
    destruct (urljoin' _ _) as [e | url]; [discriminate |].
    destruct (_make_request_with_retry self "POST" url 3 (run_kwargs rq) st)
      as [[e | response] st'] eqn:Hr; [discriminate |].
    destruct (Response.json response) as [e | body] eqn:Hj; [discriminate |].
    injection Htry as <-. cbn.
    repeat split. exists url, response, st'. repeat split; assumption.
Qed.

(** C9, as the code has it: when [urljoin] rejects the base URL no request
    is sent; otherwise the whole effect of [execute_flow] on the outside is
    that of one call of the retry primitive, which sends between one and
    four requests, each a POST to
    [urljoin(base_url, "/api/v1/run/" + flow_id)] with the header
    [Content-Type: application/json] and a JSON body with exactly the keys
    [input_value], [output_type], [input_type] and [tweaks]; that URL is
    [base_url + "/api/v1/run/" + flow_id] when the base is [http://host] or
    [https://host], the host made of letters, digits, [-], [.] and [:], and
    the flow identifier of letters, digits, [-] and [_]; [output_type] and
    [input_type] default to "chat" and [tweaks] to the empty mapping. *)
Theorem C9_execute_flow_request :
  forall (self : LangflowService) (flow_id : string)
         (rq : FlowExecutionRequest.t) (st : State),
    (forall url,
        urljoin' (base_url self) ("/api/v1/run/" ++ flow_id)%string = inr url ->
        snd (execute_flow' self flow_id rq st)
        = snd (_make_request_with_retry self "POST" url 3 (run_kwargs rq) st)
        /\ exists k : nat,
             (1 <= k <= 4)%nat
             /\ events (snd (execute_flow' self flow_id rq st))
                = events st ++ trace_of (mkRequest "POST" url (run_kwargs rq)) 0 k)
    /\ (forall e,
          urljoin' (base_url self) ("/api/v1/run/" ++ flow_id)%string = inl e ->
          execute_flow' self flow_id rq st
          = (inr (FlowExecutionResponse.mk false JNull
                    (Some ("Unexpected error during flow execution: "
                           ++ str_foreign e)%string)),
             st))
    /\ (forall sch host,
          sch = "http"%string \/ sch = "https"%string ->
          base_url self = (sch ++ "://" ++ host)%string ->
          Py.forallb host_char host = true ->
          Py.forallb id_char flow_id = true ->
          urljoin' (base_url self) ("/api/v1/run/" ++ flow_id)%string
          = inr (base_url self ++ "/api/v1/run/" ++ flow_id)%string)
    /\ run_kwargs rq
       = [("json",
           JDict [("input_value", JStr (FlowExecutionRequest.input_value rq));
                  ("output_type", JStr (FlowExecutionRequest.output_type rq));
                  ("input_type", JStr (FlowExecutionRequest.input_type rq));
                  ("tweaks", JDict (FlowExecutionRequest.tweaks rq))]);
          ("headers", JDict [("Content-Type", JStr "application/json")])]
    /\ (forall input_value,
          FlowExecutionRequest.new input_value None None None
          = FlowExecutionRequest.mk input_value "chat" "chat" []).
Proof.
  intros self flow_id rq st. split; [| split; [| split; [| split; [reflexivity |]]]].
  - intros url Hurl.
    assert (Hsnd : snd (execute_flow' self flow_id rq st)
                   = snd (_make_request_with_retry self "POST" url 3 (run_kwargs rq) st)).
    { rewrite execute_flow_run, execute_flow_try_run, Hurl. cbn [snd].
      destruct (_make_request_with_retry self "POST" url 3 (run_kwargs rq) st)
        as [[e | response] st']; [reflexivity |].
      destruct (Response.json response); reflexivity. }
    split; [exact Hsnd |].
    destruct (retry_trace self "POST" url 3 (run_kwargs rq) st) as (k & Hk & Hk1 & Hev).
    exists k. rewrite Hsnd. split; [| exact Hev].
    split; [apply Hk1; lia | exact Hk].
  - intros e Hurl.
    rewrite execute_flow_run, execute_flow_try_run, Hurl. reflexivity.
  - intros sch host Hsch Hbase Hh Hf. rewrite Hbase.
    apply urljoin_origin; assumption.
  - intro input_value. reflexivity.
Qed.

End Execution.

(** ** Runs of the model *)

Lemma C5_get_flows_keeps_valid_records_witness :
  fst (get_flows ascii_NFKC accept_bracketed_host strict_validate test_service
         (answering (JList [valid_record; invalid_record])))
  = inr [valid_flow].
Proof.
  pose (body := JList [valid_record; invalid_record]).
  pose (u := "http://test-langflow:7860/api/v1/flows/"%string).
  destruct (C5_get_flows_keeps_valid_records ascii_NFKC accept_bracketed_host
              strict_validate test_service (answering body)
              (snd (_make_request_with_retry test_service "GET" u 3 flows_kwargs
                      (answering body)))
              u (ok_response body) body [valid_record; invalid_record])
    as (H & _).
  - reflexivity.
  - reflexivity.
  - reflexivity.
  - left; reflexivity.
  - destruct (H eq_refl) as (Hrun & _).
    fold body. rewrite Hrun. reflexivity.
Defined.

(** C5 as stated fails: in the list of a valid record and [null], the
    second element does not validate, and it is not skipped: the call
    raises and the valid record is not returned. *)
Lemma C5_element_not_an_object_fails_the_call :
  valid strict_validate JNull = false
  /\ validated strict_validate [valid_record; JNull] = [valid_flow]
  /\ fst (get_flows ascii_NFKC accept_bracketed_host strict_validate test_service
            (answering (JList [valid_record; JNull])))
     <> inr [valid_flow]
  /\ exists msg,
       fst (get_flows ascii_NFKC accept_bracketed_host strict_validate test_service
              (answering (JList [valid_record; JNull])))
       = inl (LangflowServiceError ("Failed to fetch flows: " ++ msg)%string).
Proof.
  split; [reflexivity |]. split; [reflexivity |]. split.
  - discriminate.
  - eexists. reflexivity.
Qed.

Lemma C6_get_flows_bare_or_wrapped_witness :
  fst (get_flows ascii_NFKC accept_bracketed_host strict_validate test_service
         (answering (JList [valid_record; invalid_record])))
  = fst (get_flows ascii_NFKC accept_bracketed_host strict_validate test_service
           (answering (JDict [("flows", JList [valid_record; invalid_record])]))).
Proof.
  pose (l := [valid_record; invalid_record]).
  pose (u := "http://test-langflow:7860/api/v1/flows/"%string).
  apply (C6_get_flows_bare_or_wrapped ascii_NFKC accept_bracketed_host
           strict_validate test_service
           (answering (JList l))
           (snd (_make_request_with_retry test_service "GET" u 3 flows_kwargs
                   (answering (JList l))))
           (answering (JDict [("flows", JList l)]))
           (snd (_make_request_with_retry test_service "GET" u 3 flows_kwargs
                   (answering (JDict [("flows", JList l)]))))
           u (ok_response (JList l)) (ok_response (JDict [("flows", JList l)])) l);
    reflexivity.
Defined.

Lemma C8_get_flows_unexpected_shape_witness :
  fst (get_flows ascii_NFKC accept_bracketed_host strict_validate test_service
         (answering (JDict [("items", JList [])])))
  = inl (LangflowServiceError "Unexpected response format: <class 'dict'>").
Proof.
  pose (body := JDict [("items", JList [])]).
  pose (u := "http://test-langflow:7860/api/v1/flows/"%string).
  assert (H := C8_get_flows_unexpected_shape ascii_NFKC accept_bracketed_host
                 strict_validate test_service (answering body)
                 (snd (_make_request_with_retry test_service "GET" u 3 flows_kwargs
                         (answering body)))
                 u (ok_response body) body
                 eq_refl eq_refl eq_refl eq_refl).
  fold body. rewrite H.
  - reflexivity.
  - intros d Hd. injection Hd as <-. reflexivity.
Defined.

Lemma C10_get_flows_flows_key_not_a_list_witness :
  exists msg,
    fst (get_flows ascii_NFKC accept_bracketed_host strict_validate test_service
           (answering (JDict [("flows", JInt 5)])))
    = inl (LangflowServiceError ("Failed to fetch flows: " ++ msg)%string).
Proof.
  pose (body := JDict [("flows", JInt 5)]).
  pose (u := "http://test-langflow:7860/api/v1/flows/"%string).
  destruct (C10_get_flows_flows_key_not_a_list ascii_NFKC accept_bracketed_host
              strict_validate test_service (answering body)
              (snd (_make_request_with_retry test_service "GET" u 3 flows_kwargs
                      (answering body)))
              u (ok_response body) [("flows", JInt 5)] (JInt 5))
    as (_ & H).
  - reflexivity.
  - reflexivity.
  - reflexivity.
  - reflexivity.
  - reflexivity.
  - destruct H as (msg & H); [discriminate | discriminate |].
    exists msg. fold body. rewrite H. reflexivity.
Defined.

(** C10 as stated fails: under the key [flows], the empty string and the
    empty object are not lists of records, and [get_flows] returns the empty
    list for both; nothing is raised. *)
Lemma C10_empty_string_or_object_returns_no_flows :
  fst (get_flows ascii_NFKC accept_bracketed_host strict_validate test_service
         (answering (JDict [("flows", JStr "")])))
  = inr []
  /\ fst (get_flows ascii_NFKC accept_bracketed_host strict_validate test_service
            (answering (JDict [("flows", JDict [])])))
     = inr [].
Proof. split; reflexivity. Qed.

Lemma C1_execute_flow_reports_failure_witness :
  let missing := Response.mk 404 "Not Found"
                   (Some (HTTPStatusError "Client error" 404 "Not Found"))
                   (inl (ValueError "no body")) in
  fst (execute_flow ascii_NFKC accept_bracketed_host test_service "flow-1"
         (FlowExecutionRequest.new "Test input" None None None)
         (fresh (scripted [] (inr missing))))
  = inr (FlowExecutionResponse.mk false JNull (Some "Client error 404: Not Found")).
Proof.
  intro missing.
  pose (rq := FlowExecutionRequest.new "Test input" None None None).
  pose (st := fresh (scripted [] (inr missing))).
  pose (u := "http://test-langflow:7860/api/v1/run/flow-1"%string).
  destruct (C1_execute_flow_reports_failure ascii_NFKC accept_bracketed_host
              test_service "flow-1" rq st) as (_ & H).
  destruct (H u (LangflowServiceError "Client error 404: Not Found")
              (snd (_make_request_with_retry test_service "POST" u 3
                      (run_kwargs rq) st)))
    as (msg & Hrun & _ & Hmsg).
  - reflexivity.
  - reflexivity.
  - fold rq st. rewrite Hrun, Hmsg. reflexivity.
Defined.

(** C7 as stated fails: when the body of the response is the JSON value
    [null], [execute_flow] returns [success = true] with the result [None]
    and the error [None]. *)
Lemma C7_null_body_gives_null_result :
  exists r,
    fst (execute_flow ascii_NFKC accept_bracketed_host test_service "flow-1"
           (FlowExecutionRequest.new "Test input" None None None)
           (answering JNull))
    = inr r
    /\ FlowExecutionResponse.success r = true
    /\ FlowExecutionResponse.result r = JNull
    /\ FlowExecutionResponse.error r = None.
Proof. eexists. repeat split. Qed.

Lemma C9_execute_flow_request_witness :
  requests_of
    (events
       (snd (execute_flow ascii_NFKC accept_bracketed_host test_service "flow-1"
               (FlowExecutionRequest.new "Test input" None None None)
               (answering (JDict [("result", JStr "ok")])))))
  = [mkRequest "POST" "http://test-langflow:7860/api/v1/run/flow-1"
       [("json", JDict [("input_value", JStr "Test input");
                        ("output_type", JStr "chat");
                        ("input_type", JStr "chat");
                        ("tweaks", JDict [])]);
        ("headers", JDict [("Content-Type", JStr "application/json")])]].
Proof.
  pose (rq := FlowExecutionRequest.new "Test input" None None None).
  pose (st := answering (JDict [("result", JStr "ok")])).
  destruct (C9_execute_flow_request ascii_NFKC accept_bracketed_host
              test_service "flow-1" rq st) as (Hrun & _ & Hurl & _ & _).
  specialize (Hurl "http"%string "test-langflow:7860"%string
                (or_introl eq_refl) eq_refl eq_refl eq_refl).
  destruct (Hrun _ Hurl) as (Hsnd & _).
  fold rq st. rewrite Hsnd. reflexivity.
Defined.

(** C9 as stated fails: a base URL with a path loses the path, and a flow
    identifier made of dots is resolved away; in both runs the URL of the
    request is not [base + "/api/v1/run/" + flow_id]. *)
Lemma C9_url_is_not_the_concatenation :
  let rq := FlowExecutionRequest.new "Test input" None None None in
  let prefixed := init "http://localhost:7860/langflow" in
  let default := init default_base_url in
  map url
    (requests_of
       (events (snd (execute_flow ascii_NFKC accept_bracketed_host prefixed "f" rq
                       (answering JNull)))))
  = ["http://localhost:7860/api/v1/run/f"%string]
  /\ "http://localhost:7860/api/v1/run/f"%string
     <> (base_url prefixed ++ "/api/v1/run/" ++ "f")%string
  /\ map url
       (requests_of
          (events (snd (execute_flow ascii_NFKC accept_bracketed_host default ".." rq
                          (answering JNull)))))
     = ["http://localhost:7860/api/v1/"%string]
  /\ "http://localhost:7860/api/v1/"%string
     <> (base_url default ++ "/api/v1/run/" ++ "..")%string.
Proof.
  repeat split; try reflexivity; apply String.eqb_neq; reflexivity.
Qed.

(** ** More on the retry primitive *)

(** What the call yields once the handlers do not retry. *)
Lemma attempts_settled (m u : string) (mr : Z) (kw : list (string * Json))
  (fails : nat -> foreign_exn) (rm : Remote) (ev0 : list Event) (j : nat)
  (o : exn + Response.t) :
  let req := mkRequest m u kw in
  (forall i : nat, (i < j)%nat ->
     retried (fails i)
     /\ outcome_at rm (ev0 ++ rounds req 0 i) req = inl (Foreign (fails i))) ->
  outcome_at rm (ev0 ++ rounds req 0 j) req = o ->
  (forall e, handle o <> Retry e) ->
  forall (d a n : nat) (last : option foreign_exn) (st : State),
    (a + d = j)%nat ->
    (d <= n)%nat ->
    Z.of_nat (a + n) = mr ->
    remote st = rm ->
    events st = ev0 ++ rounds req 0 a ->
    attempts m u mr kw (map Z.of_nat (seq a (S n))) last st
    = (match handle o with
       | Return response => inr response
       | Reraise e => inl e
       | Retry e => inl (Foreign e)
       end,
       mkState rm (ev0 ++ trace_of req 0 (S j)) (_client st)).
Proof.
  intros req Hfail Ho Hsettled.
  induction d as [| d IH]; intros a n last st Hj Hn Hmr Hrm Hev.
  - rewrite Nat.add_0_r in Hj. subst a.
    cbn [seq map]. rewrite attempts_cons. cbv zeta.
    rewrite Hrm, Hev. fold req. rewrite Ho.
    destruct (handle o) as [response | e | e] eqn:Hh.
    + unfold log. simpl. now rewrite Hrm, Hev, <- app_assoc.
    + unfold log. simpl. now rewrite Hrm, Hev, <- app_assoc.
    + exfalso. apply (Hsettled e). first [reflexivity | exact Hh].
  - destruct n as [| n]; [lia |].
    cbn [seq map]. rewrite attempts_cons. cbv zeta.
    destruct (Hfail a) as [Hr Hout]; [lia |].
    rewrite Hrm, Hev. fold req. rewrite Hout, Hr.
    replace (Z.of_nat a <? mr) with true by (symmetry; apply Z.ltb_lt; lia).
    rewrite (IH (S a) n); [reflexivity | lia | lia | lia | exact Hrm |].
    rewrite log_log. unfold log; simpl.
    rewrite Hev, <- app_assoc. f_equal.
    rewrite (rounds_S_back req 0 a). reflexivity.
Qed.

(** The same for a call of the primitive. *)
Lemma retry_settled (self : LangflowService) (m u : string) (mr : Z)
  (kw : list (string * Json)) (st : State) (fails : nat -> foreign_exn)
  (j : nat) (o : exn + Response.t) :
  let req := mkRequest m u kw in
  Z.of_nat j <= mr ->
  (forall i : nat, (i < j)%nat ->
     retried (fails i)
     /\ outcome_at (remote st) (events st ++ rounds req 0 i) req
        = inl (Foreign (fails i))) ->
  outcome_at (remote st) (events st ++ rounds req 0 j) req = o ->
  (forall e, handle o <> Retry e) ->
  fst (_make_request_with_retry self m u mr kw st)
  = match handle o with
    | Return response => inr response
    | Reraise e => inl e
    | Retry e => inl (Foreign e)
    end
  /\ events (snd (_make_request_with_retry self m u mr kw st))
     = events st ++ trace_of req 0 (S j).
Proof.
  intros req Hj Hfail Ho Hsettled.
  rewrite retry_unfold. unfold range.
  replace (Z.to_nat (mr + 1)) with (S (Z.to_nat mr)) by lia.
  destruct (get_client_events self st) as (He & Hr & _).
  rewrite (attempts_settled m u mr kw fails (remote st) (events st) j o
             Hfail Ho Hsettled j 0 (Z.to_nat mr) None);
    try lia; try assumption.
  - split; reflexivity.
  - rewrite He. simpl. now rewrite app_nil_r.
Qed.

(** X1: when the attempts before attempt [j] fail with retried failures and
    attempt [j], within the budget, returns a response that passes
    [raise_for_status], the primitive returns that response after exactly
    [j + 1] requests and the waits 1, 2, ..., [2 ^ (j - 1)]. *)
Theorem X1_retry_returns_first_success :
  forall (self : LangflowService) (m u : string) (max_retries : Z)
         (kw : list (string * Json)) (st : State) (fails : nat -> foreign_exn)
         (j : nat) (response : Response.t),
    let req := mkRequest m u kw in
    let run := _make_request_with_retry self m u max_retries kw st in
    Z.of_nat j <= max_retries ->
    (forall i : nat, (i < j)%nat ->
       retried (fails i)
       /\ outcome_at (remote st) (events st ++ rounds req 0 i) req
          = inl (Foreign (fails i))) ->
    outcome_at (remote st) (events st ++ rounds req 0 j) req = inr response ->
    fst run = inr response
    /\ requests_of (events (snd run)) = requests_of (events st) ++ repeat req (S j)
    /\ sleeps_of (events (snd run))
       = sleeps_of (events st) ++ map (fun i => 2 ^ Z.of_nat i) (seq 0 j).
Proof.
  intros self m u mr kw st fails j response req run Hj Hfail Ho.
  destruct (retry_settled self m u mr kw st fails j (inr response) Hj Hfail Ho)
    as (Hres & Hev); [discriminate |].
  fold req run in Hres, Hev. rewrite Hev, requests_of_app, sleeps_of_app.
  rewrite requests_of_trace_of, sleeps_of_trace_of. auto.
Qed.

(** X2: a status in [400, 500) at attempt [j], after retried failures,
    ends the call there: the primitive raises the client error with the
    status and the response text after [j + 1] requests, and the last wait
    is the one before attempt [j]. *)
Theorem X2_retry_client_error_ends_call :
  forall (self : LangflowService) (m u : string) (max_retries : Z)
         (kw : list (string * Json)) (st : State) (fails : nat -> foreign_exn)
         (j : nat) (msg : string) (status_code : Z) (text : string),
    let req := mkRequest m u kw in
    let run := _make_request_with_retry self m u max_retries kw st in
    Z.of_nat j <= max_retries ->
    (forall i : nat, (i < j)%nat ->
       retried (fails i)
       /\ outcome_at (remote st) (events st ++ rounds req 0 i) req
          = inl (Foreign (fails i))) ->
    outcome_at (remote st) (events st ++ rounds req 0 j) req
    = inl (Foreign (HTTPStatusError msg status_code text)) ->
    400 <= status_code < 500 ->
    fst run
    = inl (LangflowServiceError
             ("Client error " ++ Py.str_int status_code ++ ": " ++ text)%string)
    /\ events (snd run) = events st ++ trace_of req 0 (S j).
Proof.
  intros self m u mr kw st fails j msg code text req run Hj Hfail Ho Hc.
  assert (Hh : handle (inl (Foreign (HTTPStatusError msg code text)))
               = Reraise (LangflowServiceError
                            ("Client error " ++ Py.str_int code ++ ": " ++ text)%string)).
  { simpl.
    replace (400 <=? code) with true by (symmetry; apply Z.leb_le; lia).
    replace (code <? 500) with true by (symmetry; apply Z.ltb_lt; lia).
    reflexivity. }
  destruct (retry_settled self m u mr kw st fails j _ Hj Hfail Ho) as (Hres & Hev).
  - intros e. rewrite Hh. discriminate.
  - fold req run in Hres, Hev. rewrite Hres, Hh. auto.
Qed.

(** X3: an exception of any other class at attempt [j], after retried
    failures, leaves the primitive unchanged and unwrapped after [j + 1]
    requests; it is neither retried nor turned into a service error. *)
Theorem X3_retry_passes_on_other_exceptions :
  forall (self : LangflowService) (m u : string) (max_retries : Z)
         (kw : list (string * Json)) (st : State) (fails : nat -> foreign_exn)
         (j : nat) (e : foreign_exn),
    let req := mkRequest m u kw in
    let run := _make_request_with_retry self m u max_retries kw st in
    Z.of_nat j <= max_retries ->
    (forall i : nat, (i < j)%nat ->
       retried (fails i)
       /\ outcome_at (remote st) (events st ++ rounds req 0 i) req
          = inl (Foreign (fails i))) ->
    outcome_at (remote st) (events st ++ rounds req 0 j) req = inl (Foreign e) ->
    uncaught e = true ->
    fst run = inl (Foreign e)
    /\ events (snd run) = events st ++ trace_of req 0 (S j).
Proof.
  intros self m u mr kw st fails j e req run Hj Hfail Ho Hu.
  assert (Hh : handle (inl (Foreign e)) = Reraise (Foreign e))
    by (destruct e; try discriminate Hu; reflexivity).
  destruct (retry_settled self m u mr kw st fails j _ Hj Hfail Ho) as (Hres & Hev).
  - intros e'. rewrite Hh. discriminate.
  - fold req run in Hres, Hev. rewrite Hres, Hh. auto.
Qed.

(** X4: with a negative [max_retries] the loop has no turn: nothing is
    sent, nothing is waited for, and the primitive raises the exhaustion
    error with the attempt count [max_retries + 1] and the failure "None". *)
Theorem X4_retry_negative_budget :
  forall (self : LangflowService) (m u : string) (max_retries : Z)
         (kw : list (string * Json)) (st : State),
    let run := _make_request_with_retry self m u max_retries kw st in
    max_retries < 0 ->
    fst run
    = inl (LangflowServiceError
             ("Failed to make request after " ++ Py.str_int (max_retries + 1)
              ++ " attempts: None")%string)
    /\ events (snd run) = events st.
Proof.
  intros self m u mr kw st run Hneg. unfold run.
  rewrite retry_unfold. unfold range.
  replace (Z.to_nat (mr + 1)) with 0%nat by lia.
  destruct (get_client_events self st) as (He & _ & _).
  simpl. auto.
Qed.

Lemma total_powers (n : nat) :
  total (map (fun i => 2 ^ Z.of_nat i) (seq 0 n)) = 2 ^ Z.of_nat n - 1.
Proof.
  unfold total. induction n as [| n IH]; [reflexivity |].
  rewrite seq_S, map_app, fold_right_app. cbn [map fold_right Nat.add].
  assert (Hshift : forall l z, fold_right Z.add z l = fold_right Z.add 0 l + z).
  { induction l as [| x l IHl]; intro z; simpl; [lia | rewrite IHl; lia]. }
  rewrite Hshift, IH, Nat2Z.inj_succ, Z.pow_succ_r by lia. lia.
Qed.

(** X5: the waits of one call add up to [2 ^ (k - 1) - 1] for its [k]
    requests, so to at most [2 ^ max_retries - 1]: at most 7 for the
    default of 3 retries. *)
Theorem X5_retry_total_wait_bounded :
  forall (self : LangflowService) (m u : string) (max_retries : Z)
         (kw : list (string * Json)) (st : State),
    let run := _make_request_with_retry self m u max_retries kw st in
    0 <= max_retries ->
    exists (new : list Event) (k : nat),
      events (snd run) = events st ++ new
      /\ List.length (requests_of new) = k
      /\ total (sleeps_of new) = 2 ^ Z.of_nat (pred k) - 1
      /\ total (sleeps_of new) <= 2 ^ max_retries - 1.
Proof.
  intros self m u mr kw st run Hmr.
  destruct (retry_trace self m u mr kw st) as (k & Hk & Hk1 & Hev).
  exists (trace_of (mkRequest m u kw) 0 k), k.
  rewrite requests_of_trace_of, repeat_length, sleeps_of_trace_of, total_powers.
  repeat split; [exact Hev |].
  specialize (Hk1 Hmr).
  assert (2 ^ Z.of_nat (pred k) <= 2 ^ mr); [| lia].
  apply Z.pow_le_mono_r; lia.
Qed.

Lemma handle_reraise (rm : Remote) (evs : list Event) (req : Request) (e : exn) :
  handle (outcome_at rm evs req) = Reraise e ->
  match e with
  | LangflowServiceError _ => True
  | Foreign f => uncaught f = true
  end.
Proof.
  destruct (outcome_at rm evs req) as [e' | response] eqn:Ho; [| discriminate].
  destruct (outcome_at_foreign rm evs req e' Ho) as [f ->].
  destruct f as [x | x | x code text | x | x | x | x]; simpl;
    try discriminate; try (intro H; injection H as <-; reflexivity).
  destruct ((400 <=? code) && (code <? 500)); [| discriminate].
  intro H. injection H as <-. exact I.
Qed.

Lemma attempts_raises (m u : string) (mr : Z) (kw : list (string * Json)) :
  forall (todo : list Z) (last : option foreign_exn) (st : State),
    match fst (attempts m u mr kw todo last st) with
    | inr _ => True
    | inl (LangflowServiceError _) => True
    | inl (Foreign f) => uncaught f = true
    end.
Proof.
  induction todo as [| a todo IH]; intros last st; [exact I |].
  rewrite attempts_cons. cbv zeta.
  destruct (handle _) as [response | e | e] eqn:Hh.
  - exact I.
  - exact (handle_reraise _ _ _ _ Hh).
  - apply IH.
Qed.

(** X6: whatever the remote does, the primitive never lets a timeout, a
    connection error or a status error out: it returns a response, raises a
    [LangflowServiceError], or passes on an exception of another class. *)
Theorem X6_retry_never_raises_caught_classes :
  forall (self : LangflowService) (m u : string) (max_retries : Z)
         (kw : list (string * Json)) (st : State),
    match fst (_make_request_with_retry self m u max_retries kw st) with
    | inr _ => True
    | inl (LangflowServiceError msg) => msg <> ""%string
    | inl (Foreign f) => uncaught f = true
    end.
Proof.
  intros self m u mr kw st.
  pose proof (retry_service_error self m u mr kw st) as Hne.
  rewrite retry_unfold in *.
  pose proof (attempts_raises m u mr kw (range (mr + 1)) None
                (snd (_get_client self st))) as H.
  destruct (fst (attempts m u mr kw (range (mr + 1)) None
                   (snd (_get_client self st)))) as [[msg | f] | response];
    auto.
Qed.

Lemma X1_retry_returns_first_success_witness :
  let st := fresh (scripted [inl (TimeoutException "Timeout");
                             inl (ConnectError "refused")]
                     (inr (ok_response JNull))) in
  let run := _make_request_with_retry test_service "GET" "http://test.com" 3 [] st in
  fst run = inr (ok_response JNull)
  /\ List.length (requests_of (events (snd run))) = 3%nat
  /\ sleeps_of (events (snd run)) = [1; 2].
Proof.
  intros st run.
  destruct (X1_retry_returns_first_success test_service "GET" "http://test.com" 3
              [] st
              (fun i => match i with
                        | O => TimeoutException "Timeout"
                        | _ => ConnectError "refused"
                        end)
              2 (ok_response JNull)) as (Hres & Hreq & Hsl).
  - lia.
  - intros [| [| i]] Hi; [split; reflexivity | split; reflexivity | lia].
  - reflexivity.
  - fold run in Hres, Hreq, Hsl. rewrite Hreq, Hsl.
    split; [exact Hres | split; reflexivity].
Defined.

Lemma X2_retry_client_error_ends_call_witness :
  let st := fresh (scripted [inl (HTTPStatusError "Server error" 503 "busy")]
                     (inl (HTTPStatusError "Client error" 404 "Not Found"))) in
  let run := _make_request_with_retry test_service "GET" "http://test.com" 3 [] st in
  fst run = inl (LangflowServiceError "Client error 404: Not Found")
  /\ List.length (requests_of (events (snd run))) = 2%nat
  /\ sleeps_of (events (snd run)) = [1].
Proof.
  intros st run.
  destruct (X2_retry_client_error_ends_call test_service "GET" "http://test.com" 3
              [] st (fun _ => HTTPStatusError "Server error" 503 "busy")
              1 "Client error" 404 "Not Found") as (Hres & Hev).
  - lia.
  - intros [| i] Hi; [split; reflexivity | lia].
  - reflexivity.
  - lia.
  - fold run in Hres, Hev. rewrite Hev.
    split; [exact Hres | split; reflexivity].
Defined.

Lemma X3_retry_passes_on_other_exceptions_witness :
  let st := fresh (scripted [inl (TimeoutException "Timeout")]
                     (inl (OtherException "read error"))) in
  let run := _make_request_with_retry test_service "GET" "http://test.com" 3 [] st in
  fst run = inl (Foreign (OtherException "read error"))
  /\ List.length (requests_of (events (snd run))) = 2%nat
  /\ sleeps_of (events (snd run)) = [1].
Proof.
  intros st run.
  destruct (X3_retry_passes_on_other_exceptions test_service "GET"
              "http://test.com" 3 [] st (fun _ => TimeoutException "Timeout")
              1 (OtherException "read error")) as (Hres & Hev).
  - lia.
  - intros [| i] Hi; [split; reflexivity | lia].
  - reflexivity.
  - reflexivity.
  - fold run in Hres, Hev. rewrite Hev.
    split; [exact Hres | split; reflexivity].
Defined.

Lemma X4_retry_negative_budget_witness :
  let run := _make_request_with_retry test_service "GET" "http://test.com" (-1) []
               (answering JNull) in
  fst run
  = inl (LangflowServiceError "Failed to make request after 0 attempts: None")
  /\ events (snd run) = [].
Proof.
  intro run.
  destruct (X4_retry_negative_budget test_service "GET" "http://test.com" (-1) []
              (answering JNull)) as (Hres & Hev); [lia |].
  fold run in Hres, Hev. split; [exact Hres | exact Hev].
Defined.

Lemma X5_retry_total_wait_bounded_witness :
  let run := _make_request_with_retry test_service "GET" "http://test.com" 3 []
               (fresh (scripted [] (inl (TimeoutException "Timeout")))) in
  exists new : list Event,
    events (snd run) = new /\ total (sleeps_of new) <= 7.
Proof.
  intro run.
  destruct (X5_retry_total_wait_bounded test_service "GET" "http://test.com" 3 []
              (fresh (scripted [] (inl (TimeoutException "Timeout")))))
    as (new & k & Hev & _ & _ & Hle); [lia |].
  exists new. fold run in Hev. split; [exact Hev | exact Hle].
Defined.

(** ** The client and the session *)

Lemma attempts_client (m u : string) (mr : Z) (kw : list (string * Json)) :
  forall (todo : list Z) (last : option foreign_exn) (st : State),
    _client (snd (attempts m u mr kw todo last st)) = _client st.
Proof.
  induction todo as [| a todo IH]; intros last st; [reflexivity |].
  rewrite attempts_cons. cbv zeta.
  destruct (handle _) as [response | e | e]; try reflexivity.
  rewrite IH. now destruct (a <? mr).
Qed.

(** X7: [_get_client] creates the client lazily and reuses it: it returns
    an open client, creating one (at most 5 idle and 10 total connections)
    only when the service has none or a closed one; a second call returns
    the same client and changes nothing; the history is untouched. *)
Theorem X7_get_client_creates_once :
  forall (self : LangflowService) (st : State),
    let st1 := snd (_get_client self st) in
    exists client,
      _get_client self st = (inr client, st1)
      /\ is_closed client = false
      /\ _client st1 = Some client
      /\ events st1 = events st
      /\ _get_client self st1 = (inr client, st1)
      /\ (no_open_client st -> client = mkClient 5 10 false)
      /\ (~ no_open_client st -> st1 = st).
Proof.
  intros self st st1. unfold st1, _get_client, no_open_client.
  destruct st as [rm evs [[k mc closed] |]]; simpl.
  - destruct closed; simpl.
    + eexists. repeat split. intro H. contradiction H. reflexivity.
    + eexists. repeat split. intro H. discriminate H.
  - eexists. repeat split. intro H. contradiction H. exact I.
Qed.

Lemma X7_get_client_creates_once_witness :
  let st := answering JNull in
  fst (_get_client test_service st) = inr (mkClient 5 10 false)
  /\ _get_client test_service (snd (_get_client test_service st))
     = (inr (mkClient 5 10 false), snd (_get_client test_service st)).
Proof.
  intro st.
  destruct (X7_get_client_creates_once test_service st)
    as (client & Hrun & _ & _ & _ & Hagain & Hnew & _).
  rewrite (Hnew I) in Hrun, Hagain. rewrite Hrun. split; [reflexivity | exact Hagain].
Defined.

Lemma get_client_open (self : LangflowService) (st : State) :
  exists client,
    _client (snd (_get_client self st)) = Some client
    /\ is_closed client = false
    /\ (~ no_open_client st -> snd (_get_client self st) = st).
Proof.
  unfold _get_client, no_open_client.
  destruct st as [rm evs [[k mc closed] |]]; simpl.
  - destruct closed; simpl; eexists; repeat split.
    intro H. contradiction H. reflexivity.
  - eexists. repeat split. intro H. contradiction H. exact I.
Qed.

(** X8: after a call of the retry primitive the service holds an open
    client, whatever the outcome of the call; it is the client the service
    held before when that one was open. *)
Theorem X8_retry_leaves_open_client :
  forall (self : LangflowService) (m u : string) (max_retries : Z)
         (kw : list (string * Json)) (st : State),
    let st' := snd (_make_request_with_retry self m u max_retries kw st) in
    exists client,
      _client st' = Some client
      /\ is_closed client = false
      /\ (~ no_open_client st -> _client st' = _client st).
Proof.
  intros self m u mr kw st st'. unfold st'.
  rewrite retry_unfold, attempts_client.
  destruct (get_client_open self st) as (client & Hc & Hopen & Hsame).
  exists client. repeat split; [exact Hc | exact Hopen |].
  intro H. now rewrite (Hsame H).
Qed.

Lemma X8_retry_leaves_open_client_witness :
  let client := mkClient 5 10 false in
  let st := mkState (scripted [] (inl (TimeoutException "Timeout"))) [] (Some client) in
  _client (snd (_make_request_with_retry test_service "GET" "http://test.com" 3 [] st))
  = Some client.
Proof.
  intros client st.
  destruct (X8_retry_leaves_open_client test_service "GET" "http://test.com" 3 [] st)
    as (c & _ & _ & Hsame).
  rewrite Hsame; [reflexivity |].
  unfold no_open_client, st. simpl. discriminate.
Defined.

Lemma close_run (self : LangflowService) (st : State) :
  fst (close self st) = inr tt
  /\ no_open_client (snd (close self st))
  /\ events (snd (close self st)) = events st
  /\ remote (snd (close self st)) = remote st
  /\ (no_open_client st -> snd (close self st) = st).
Proof.
  unfold close, no_open_client.
  destruct st as [rm evs [[k mc closed] |]]; simpl.
  - destruct closed; simpl; repeat split. discriminate.
  - repeat split.
Qed.

(** X9: [close] never fails and leaves the service without an open client;
    it touches neither the history nor the remote; on a service without an
    open client, one never used or one already closed, it changes nothing,
    so closing twice is closing once. *)
Theorem X9_close_closes_once :
  forall (self : LangflowService) (st : State),
    let st' := snd (close self st) in
    close self st = (inr tt, st')
    /\ no_open_client st'
    /\ events st' = events st
    /\ remote st' = remote st
    /\ close self st' = (inr tt, st')
    /\ (no_open_client st -> st' = st).
Proof.
  intros self st st'. unfold st'.
  destruct (close_run self st) as (Hres & Hclosed & Hev & Hrm & Hsame).
  destruct (close_run self (snd (close self st))) as (Hres2 & _ & _ & _ & Hsame2).
  repeat split; try assumption.
  - destruct (close self st) as [r s]. simpl in *. now subst r.
  - specialize (Hsame2 Hclosed).
    destruct (close self (snd (close self st))) as [r s]. simpl in *. now subst.
Qed.

Lemma X9_close_closes_once_witness :
  close test_service (answering JNull) = (inr tt, answering JNull).
Proof.
  destruct (X9_close_closes_once test_service (answering JNull))
    as (Hrun & _ & _ & _ & _ & Hsame).
  rewrite Hrun, (Hsame I). reflexivity.
Defined.

Lemma async_with_run {A : Type} (service : LangflowService)
  (body : LangflowService -> M A) (st : State) :
  async_with service body st
  = (fst (body service st), snd (close service (snd (body service st)))).
Proof.
  unfold async_with, __aenter__, __aexit__, bind, catch, ret, raise.
  destruct (body service st) as [[e | a] st1]; simpl;
    destruct (close_run service st1) as (Hres & _);
    destruct (close service st1) as [r s]; simpl in *; now subst r.
Qed.

(** X10: an [async with] block over the service yields what its body
    yields, a value or the exception unchanged, and on both ways out the
    service is left without an open client; closing adds nothing to the
    history. *)
Theorem X10_async_with_closes_on_every_path :
  forall (A : Type) (service : LangflowService)
         (body : LangflowService -> M A) (st : State),
    let inner := body service st in
    let run := async_with service body st in
    fst run = fst inner
    /\ no_open_client (snd run)
    /\ events (snd run) = events (snd inner)
    /\ remote (snd run) = remote (snd inner).
Proof.
  intros A service body st inner run. unfold run. rewrite async_with_run.
  destruct (close_run service (snd (body service st))) as (_ & Hc & He & Hr & _).
  repeat split; assumption.
Qed.

(** ** The configured base URL *)

Open Scope string_scope.

Lemma append_empty_r (s : string) : s ++ "" = s.
Proof. induction s as [| a s IH]; [reflexivity |]. simpl. now rewrite IH. Qed.

Lemma append_assoc' (s t u : string) : (s ++ t) ++ u = s ++ t ++ u.
Proof. induction s as [| a s IH]; [reflexivity |]. simpl. now rewrite IH. Qed.

Lemma rev_append (s t : string) : Py.rev (s ++ t) = Py.rev t ++ Py.rev s.
Proof.
  induction s as [| a s IH]; simpl.
  - now rewrite append_empty_r.
  - now rewrite IH, append_assoc'.
Qed.

Lemma rev_rev (s : string) : Py.rev (Py.rev s) = s.
Proof.
  induction s as [| a s IH]; [reflexivity |].
  simpl. rewrite rev_append, IH. reflexivity.
Qed.

Lemma forallb_append (p : ascii -> bool) (s t : string) :
  Py.forallb p (s ++ t) = Py.forallb p s && Py.forallb p t.
Proof.
  induction s as [| a s IH]; [reflexivity |].
  simpl. now rewrite IH, andb_assoc.
Qed.

Lemma forallb_rev (p : ascii -> bool) (s : string) :
  Py.forallb p (Py.rev s) = Py.forallb p s.
Proof.
  induction s as [| a s IH]; [reflexivity |].
  simpl. rewrite forallb_append, IH. simpl.
  rewrite andb_true_r. apply andb_comm.
Qed.

(** [lstrip] removes a prefix of stripped characters and stops at the first
    character that is not one. *)
Lemma lstrip_split (p : ascii -> bool) (s : string) :
  exists t,
    s = t ++ Py.lstrip p s
    /\ Py.forallb p t = true
    /\ forall a rest, Py.lstrip p s = String a rest -> p a = false.
Proof.
  induction s as [| a s (t & Hs & Ht & Hhead)].
  - exists "". repeat split. discriminate.
  - simpl. destruct (p a) eqn:Hp.
    + exists (String a t). simpl. rewrite Ht, Hp, <- Hs. repeat split. exact Hhead.
    + exists "". repeat split. intros b rest H. injection H as <- _. exact Hp.
Qed.

(** X11: the service keeps the configured base URL without its trailing
    slashes: the URL is what it keeps followed by slashes only, what it
    keeps never ends with a slash, and one more trailing slash in the
    configuration makes no difference. *)
Theorem X11_init_strips_trailing_slashes :
  forall configured : string,
    (exists slashes,
        configured = base_url (init configured) ++ slashes
        /\ Py.forallb (Ascii.eqb "/") slashes = true)
    /\ (forall s, base_url (init configured) <> s ++ "/")
    /\ init (configured ++ "/") = init configured
    /\ init (base_url (init configured)) = init configured.
Proof.
  intro b. unfold init, Py.rstrip. cbn [base_url].
  destruct (lstrip_split (Ascii.eqb "/") (Py.rev b)) as (t & Hs & Ht & Hhead).
  assert (Hnot : forall s, Py.rev (Py.lstrip (Ascii.eqb "/") (Py.rev b)) <> s ++ "/").
  { intros s H. apply (f_equal Py.rev) in H.
    rewrite rev_rev, rev_append in H. simpl in H.
    specialize (Hhead _ _ H). discriminate Hhead. }
  repeat split.
  - exists (Py.rev t). split; [| now rewrite forallb_rev].
    rewrite <- rev_append, <- Hs, rev_rev. reflexivity.
  - exact Hnot.
  - rewrite rev_append. reflexivity.
  - f_equal. rewrite rev_rev.
    destruct (Py.lstrip (Ascii.eqb "/") (Py.rev b)) as [| a rest] eqn:Hl;
      [reflexivity |].
    cbn [Py.lstrip]. now rewrite (Hhead a rest eq_refl).
Qed.

Lemma X11_init_strips_trailing_slashes_witness :
  base_url (init "http://localhost:7860//") = "http://localhost:7860"
  /\ "http://localhost:7860" <> "http://localhost:786" ++ "/".
Proof.
  destruct (X11_init_strips_trailing_slashes "http://localhost:7860//")
    as (_ & Hnot & _ & _).
  split; [reflexivity | exact (Hnot "http://localhost:786")].
Defined.

Open Scope Z_scope.
Open Scope list_scope.

(** ** More on listing flows *)

Section ListingRequest.

Variable NFKC : string -> string.
Variable _check_bracketed_host : string -> option string.
Variable model_validate : list (string * Json) -> string + FlowResponse.t.

(** The operations at the parameters of this section. *)
Local Abbreviation get_flows' := (get_flows NFKC _check_bracketed_host model_validate).
Local Abbreviation get_flows_try' := (get_flows_try NFKC _check_bracketed_host model_validate).
Local Abbreviation urljoin' := (urljoin NFKC _check_bracketed_host).

Lemma urljoin_origin_flows (sch host : string) :
  sch = "http"%string \/ sch = "https"%string ->
  Py.forallb host_char host = true ->
  urljoin' (sch ++ "://" ++ host)%string "/api/v1/flows/"
  = inr ((sch ++ "://" ++ host) ++ "/api/v1/flows/")%string.
Proof.
  intros Hsch Hh.
  unfold urljoin, UrlParse.urljoin, UrlParse.urlparse.
  rewrite (urlsplit_origin NFKC _check_bracketed_host sch host Hsch Hh).
  cbv beta iota zeta.
  destruct Hsch as [-> | ->];
    (cbn [UrlParse.mem UrlParse.uses_params existsb Py.contains append
          String.eqb Ascii.eqb Bool.eqb andb orb negb];
     cbv beta iota zeta;
     match goal with
     | |- context [UrlParse.urlsplit ?n ?c ?u ?s] =>
         change (UrlParse.urlsplit n c u s)
           with (@inr foreign_exn _ (UrlParse.mkSplit s "" u "" ""))
     end;
     cbv beta iota zeta;
     cbn [UrlParse.mem UrlParse.uses_params UrlParse.uses_relative
          UrlParse.uses_netloc existsb Py.contains Py.take Py.split append
          String.eqb Ascii.eqb Bool.eqb andb orb negb];
     cbv beta iota zeta;
     unfold UrlParse.resolve_step;
     cbn [fold_left removelast app last UrlParse.mem existsb
          String.eqb Ascii.eqb Bool.eqb andb orb negb];
     cbn [app orb Py.join concat append String.eqb Ascii.eqb Bool.eqb];
     unfold UrlParse.urlunparse, UrlParse.urlunsplit;
     cbn [UrlParse.mem UrlParse.uses_netloc existsb Py.take append
          String.eqb Ascii.eqb Bool.eqb andb orb negb];
     rewrite orb_true_r;
     reflexivity).
Qed.

(** The [try] body of [get_flows] when the URL cannot be built. *)
Lemma get_flows_try_rejected (self : LangflowService) (st : State) (e : foreign_exn) :
  urljoin' (base_url self) "/api/v1/flows/" = inl e ->
  get_flows_try' self st = (inl (Foreign e), st).
Proof. intro Hurl. unfold get_flows_try. rewrite Hurl. reflexivity. Qed.

(** The [try] body of [get_flows] when the request fails. *)
Lemma get_flows_try_failed (self : LangflowService) (st st' : State)
  (url : string) (e : exn) :
  urljoin' (base_url self) "/api/v1/flows/" = inr url ->
  _make_request_with_retry self "GET" url 3 flows_kwargs st = (inl e, st') ->
  get_flows_try' self st = (inl e, st').
Proof.
  intros Hurl Hreq. unfold get_flows_try. rewrite Hurl.
  unfold lift at 1. unfold bind at 1. unfold ret at 1.
  fold flows_kwargs. unfold bind at 1. now rewrite Hreq.
Qed.

(** The [try] body of [get_flows] when the body of the response does not
    parse. *)
Lemma get_flows_try_undecodable (self : LangflowService) (st st' : State)
  (url : string) (response : Response.t) (e : foreign_exn) :
  urljoin' (base_url self) "/api/v1/flows/" = inr url ->
  _make_request_with_retry self "GET" url 3 flows_kwargs st = (inr response, st') ->
  Response.json response = inl e ->
  get_flows_try' self st = (inl (Foreign e), st').
Proof.
  intros Hurl Hreq Hjson. unfold get_flows_try. rewrite Hurl.
  unfold lift at 1. unfold bind at 1. unfold ret at 1.
  fold flows_kwargs. unfold bind at 1. rewrite Hreq, Hjson. reflexivity.
Qed.

(** The state after the [try] body of [get_flows] is the state after its
    request. *)
Lemma get_flows_try_state (self : LangflowService) (st : State) (url : string) :
  urljoin' (base_url self) "/api/v1/flows/" = inr url ->
  snd (get_flows_try' self st)
  = snd (_make_request_with_retry self "GET" url 3 flows_kwargs st).
Proof.
  intro Hurl.
  destruct (_make_request_with_retry self "GET" url 3 flows_kwargs st)
    as [[e | response] st'] eqn:Hreq.
  - now rewrite (get_flows_try_failed self st st' url e Hurl Hreq).
  - destruct (Response.json response) as [e | body] eqn:Hjson.
    + now rewrite (get_flows_try_undecodable self st st' url response e Hurl Hreq Hjson).
    + rewrite (get_flows_try_parsed NFKC _check_bracketed_host model_validate
                 self st st' url response body Hurl Hreq Hjson).
      destruct body as [| b | n | f | s | l | d]; try reflexivity.
      destruct (lookup "flows" d) as [v |]; [| reflexivity].
      destruct (iter v); reflexivity.
Qed.

(** X12: [get_flows] lets no foreign exception out: it returns the flows
    or raises a [LangflowServiceError], whatever goes wrong in its body. *)
Theorem X12_get_flows_raises_only_service_errors :
  forall (self : LangflowService) (st : State),
    match fst (get_flows' self st) with
    | inr _ => True
    | inl (LangflowServiceError _) => True
    | inl (Foreign _) => False
    end.
Proof.
  intros self st. rewrite get_flows_wrapped. cbn [fst]. unfold wrapped.
  destruct (fst (get_flows_try' self st)) as [[msg | f] | flows]; exact I.
Qed.

(** X13: when the request of [get_flows] fails, a [LangflowServiceError] of
    the retry primitive is raised again as it is, and any other exception is
    raised as a [LangflowServiceError] with its text after
    "Failed to fetch flows: "; nothing more is sent. *)
Theorem X13_get_flows_request_failure :
  forall (self : LangflowService) (st st' : State) (url : string) (e : exn),
    urljoin' (base_url self) "/api/v1/flows/" = inr url ->
    _make_request_with_retry self "GET" url 3 flows_kwargs st = (inl e, st') ->
    get_flows' self st
    = (inl (LangflowServiceError
              match e with
              | LangflowServiceError msg => msg
              | Foreign f => ("Failed to fetch flows: " ++ str_foreign f)%string
              end),
       st').
Proof.
  intros self st st' url e Hurl Hreq.
  rewrite get_flows_wrapped, (get_flows_try_failed self st st' url e Hurl Hreq).
  destruct e as [msg | f]; reflexivity.
Qed.

(** X14: when the response arrives but its body does not parse as JSON,
    [get_flows] raises a [LangflowServiceError] with the text of the decoding
    error after "Failed to fetch flows: ". *)
Theorem X14_get_flows_undecodable_body :
  forall (self : LangflowService) (st st' : State) (url : string)
         (response : Response.t) (e : foreign_exn),
    urljoin' (base_url self) "/api/v1/flows/" = inr url ->
    _make_request_with_retry self "GET" url 3 flows_kwargs st = (inr response, st') ->
    Response.json response = inl e ->
    get_flows' self st
    = (inl (LangflowServiceError ("Failed to fetch flows: " ++ str_foreign e)%string),
       st').
Proof.
  intros self st st' url response e Hurl Hreq Hjson.
  rewrite get_flows_wrapped,
    (get_flows_try_undecodable self st st' url response e Hurl Hreq Hjson).
  reflexivity.
Qed.

(** X15: one element that is not an object fails the whole listing, also
    when other elements are valid records: a list, bare or under the key
    [flows], with such an element makes [get_flows] raise a
    [LangflowServiceError] that begins "Failed to fetch flows". *)
Theorem X15_get_flows_element_not_an_object :
  forall (self : LangflowService) (st st' : State) (url : string)
         (response : Response.t) (body : Json) (l : list Json),
    urljoin' (base_url self) "/api/v1/flows/" = inr url ->
    _make_request_with_retry self "GET" url 3 flows_kwargs st = (inr response, st') ->
    Response.json response = inr body ->
    (body = JList l \/ exists d, body = JDict d /\ lookup "flows" d = Some (JList l)) ->
    forallb is_dict l = false ->
    exists msg,
      get_flows' self st
      = (inl (LangflowServiceError ("Failed to fetch flows: " ++ msg)%string), st').
Proof.
  intros self st st' url response body l Hurl Hreq Hjson Hbody Hl.
  rewrite (get_flows_of_list NFKC _check_bracketed_host model_validate
             self st st' url response body l Hurl Hreq Hjson Hbody).
  destruct (collect_not_records model_validate l Hl []) as [msg Hmsg].
  rewrite Hmsg. eexists. reflexivity.
Qed.

(** X16: when [urljoin] rejects the base URL, [get_flows] sends nothing and
    raises the rejection as a service error; otherwise its whole effect on
    the outside is that of one call of the retry primitive, a GET of
    [urljoin(base_url, "/api/v1/flows/")] with the parameters
    [header_flows=true] and [get_all=true]; that URL is
    [base_url + "/api/v1/flows/"] when the base is [http://host] or
    [https://host] with a host of letters, digits, [-], [.] and [:]. *)
Theorem X16_get_flows_request :
  forall (self : LangflowService) (st : State),
    (forall e,
        urljoin' (base_url self) "/api/v1/flows/" = inl e ->
        get_flows' self st
        = (inl (LangflowServiceError
                  ("Failed to fetch flows: " ++ str_foreign e)%string), st))
    /\ (forall url,
          urljoin' (base_url self) "/api/v1/flows/" = inr url ->
          snd (get_flows' self st)
          = snd (_make_request_with_retry self "GET" url 3
                   [("params", JDict [("header_flows", JStr "true");
                                      ("get_all", JStr "true")])] st))
    /\ (forall sch host,
          sch = "http"%string \/ sch = "https"%string ->
          base_url self = (sch ++ "://" ++ host)%string ->
          Py.forallb host_char host = true ->
          urljoin' (base_url self) "/api/v1/flows/"
          = inr (base_url self ++ "/api/v1/flows/")%string).
Proof.
  intros self st. split; [| split].
  - intros e Hurl.
    rewrite get_flows_wrapped, (get_flows_try_rejected self st e Hurl). reflexivity.
  - intros url Hurl. rewrite get_flows_wrapped. cbn [snd].
    exact (get_flows_try_state self st url Hurl).
  - intros sch host Hsch Hbase Hh. rewrite Hbase.
    apply urljoin_origin_flows; assumption.
Qed.

End ListingRequest.

(** ** More on executing a flow *)

Section ExecutionOutcome.

Variable NFKC : string -> string.
Variable _check_bracketed_host : string -> option string.

(** The operations at the parameters of this section. *)
Local Abbreviation execute_flow' := (execute_flow NFKC _check_bracketed_host).
Local Abbreviation urljoin' := (urljoin NFKC _check_bracketed_host).

(** X17: when the request succeeds and the body of the response parses,
    [execute_flow] returns [success = true] with that body as the result and
    no error, in the state the request left. *)
Theorem X17_execute_flow_success :
  forall (self : LangflowService) (flow_id : string) (rq : FlowExecutionRequest.t)
         (st st' : State) (url : string) (response : Response.t) (body : Json),
    urljoin' (base_url self) ("/api/v1/run/" ++ flow_id)%string = inr url ->
    _make_request_with_retry self "POST" url 3 (run_kwargs rq) st = (inr response, st') ->
    Response.json response = inr body ->
    execute_flow' self flow_id rq st
    = (inr (FlowExecutionResponse.mk true body None), st').
Proof.
  intros self flow_id rq st st' url response body Hurl Hreq Hjson.
  rewrite execute_flow_run, execute_flow_try_run, Hurl, Hreq, Hjson. reflexivity.
Qed.

(** X18: when the request succeeds but the body of the response does not
    parse as JSON, [execute_flow] reports a failure: [success = false], no
    result, and the text of the decoding error after
    "Unexpected error during flow execution: ". *)
Theorem X18_execute_flow_undecodable_body :
  forall (self : LangflowService) (flow_id : string) (rq : FlowExecutionRequest.t)
         (st st' : State) (url : string) (response : Response.t) (e : foreign_exn),
    urljoin' (base_url self) ("/api/v1/run/" ++ flow_id)%string = inr url ->
    _make_request_with_retry self "POST" url 3 (run_kwargs rq) st = (inr response, st') ->
    Response.json response = inl e ->
    execute_flow' self flow_id rq st
    = (inr (FlowExecutionResponse.mk false JNull
              (Some ("Unexpected error during flow execution: "
                     ++ str_foreign e)%string)),
       st').
Proof.
  intros self flow_id rq st st' url response e Hurl Hreq Hjson.
  rewrite execute_flow_run, execute_flow_try_run, Hurl, Hreq, Hjson. reflexivity.
Qed.

End ExecutionOutcome.

(** ** The gateway *)

Lemma guarded_run (block : M Json) (st : State) :
  Main.guarded block st = (answer (fst (block st)), snd (block st)).
Proof.
  unfold Main.guarded, answer.
  destruct (block st) as [[[msg | e] | v] st']; reflexivity.
Qed.

(** A block run in a new session. *)
Lemma session_run {A : Type} (b : string) (body : LangflowService -> M A) (st : State) :
  bind (LangflowService_new b) (fun service => async_with service body) st
  = (fst (body (init b) (with_new_service st)),
     snd (close (init b) (snd (body (init b) (with_new_service st))))).
Proof.
  unfold bind at 1. unfold LangflowService_new. fold (with_new_service st).
  apply async_with_run.
Qed.

Lemma bind_ret_run {A B : Type} (c : M A) (f : A -> B) (st : State) :
  bind c (fun a => ret (f a)) st
  = (match fst (c st) with
     | inr a => inr (f a)
     | inl e => inl e
     end,
     snd (c st)).
Proof. unfold bind, ret. destruct (c st) as [[e | a] st']; reflexivity. Qed.

(** Every call of the retry primitive adds its attempts to the history and
    leaves the remote as it is. *)
Lemma retry_log (self : LangflowService) (m u : string) (mr : Z)
  (kw : list (string * Json)) (st : State) :
  remote (snd (_make_request_with_retry self m u mr kw st)) = remote st
  /\ exists new,
       events (snd (_make_request_with_retry self m u mr kw st)) = events st ++ new.
Proof.
  rewrite retry_unfold. unfold range.
  destruct (attempts_trace m u mr kw (Z.to_nat (mr + 1)) 0 None
              (snd (_get_client self st))) as (k & _ & _ & Hs).
  - destruct (Z_lt_le_dec mr 0); [left | right]; lia.
  - rewrite Hs. destruct (get_client_events self st) as (He & Hr & _).
    unfold log; simpl. rewrite He, Hr. eauto.
Qed.

Section Gateway.

Variable NFKC : string -> string.
Variable _check_bracketed_host : string -> option string.
Variable model_validate : list (string * Json) -> string + FlowResponse.t.

(** The operations at the parameters of this section. *)
Local Abbreviation get_flows' := (get_flows NFKC _check_bracketed_host model_validate).
Local Abbreviation get_flows_try' := (get_flows_try NFKC _check_bracketed_host model_validate).
Local Abbreviation execute_flow' := (execute_flow NFKC _check_bracketed_host).
Local Abbreviation execute_flow_try' := (execute_flow_try NFKC _check_bracketed_host).
Local Abbreviation urljoin' := (urljoin NFKC _check_bracketed_host).
Local Abbreviation route_get_flows :=
  (Main.get_flows NFKC _check_bracketed_host model_validate).
Local Abbreviation route_test_langflow :=
  (Main.test_langflow NFKC _check_bracketed_host model_validate).
Local Abbreviation route_execute_flow := (Main.execute_flow NFKC _check_bracketed_host).
Local Abbreviation route_test_hardcoded_flow :=
  (Main.test_hardcoded_flow NFKC _check_bracketed_host).

Lemma execute_flow_returns (self : LangflowService) (flow_id : string)
  (rq : FlowExecutionRequest.t) (st : State) :
  exists r, fst (execute_flow' self flow_id rq st) = inr r.
Proof.
  rewrite execute_flow_run. cbn [fst].
  destruct (fst (execute_flow_try' self flow_id rq st)) as [[msg | f] | r]; eauto.
Qed.

Lemma get_flows_outcome (self : LangflowService) (st : State) :
  (exists flows, fst (get_flows' self st) = inr flows)
  \/ (exists msg, fst (get_flows' self st) = inl (LangflowServiceError msg)).
Proof.
  rewrite get_flows_wrapped. cbn [fst]. unfold wrapped.
  destruct (fst (get_flows_try' self st)) as [[msg | f] | flows]; simpl; eauto.
Qed.

Lemma get_flows_state (self : LangflowService) (st : State) :
  remote (snd (get_flows' self st)) = remote st
  /\ exists new, events (snd (get_flows' self st)) = events st ++ new.
Proof.
  rewrite get_flows_wrapped. cbn [snd].
  destruct (urljoin' (base_url self) "/api/v1/flows/") as [e | url] eqn:Hurl.
  - rewrite (get_flows_try_rejected NFKC _check_bracketed_host model_validate
               self st e Hurl).
    split; [reflexivity |]. exists []. simpl. now rewrite app_nil_r.
  - rewrite (get_flows_try_state NFKC _check_bracketed_host model_validate
               self st url Hurl).
    apply retry_log.
Qed.

Lemma execute_flow_state (self : LangflowService) (flow_id : string)
  (rq : FlowExecutionRequest.t) (st : State) :
  remote (snd (execute_flow' self flow_id rq st)) = remote st
  /\ exists new, events (snd (execute_flow' self flow_id rq st)) = events st ++ new.
Proof.
  rewrite execute_flow_run, execute_flow_try_run. cbn [snd].
  destruct (urljoin' (base_url self) ("/api/v1/run/" ++ flow_id)%string) as [e | url].
  - split; [reflexivity |]. exists []. simpl. now rewrite app_nil_r.
  - destruct (retry_log self "POST" url 3 (run_kwargs rq) st) as (Hr & new & He).
    destruct (_make_request_with_retry self "POST" url 3 (run_kwargs rq) st)
      as [[e | response] st']; simpl in *.
    + eauto.
    + destruct (Response.json response); simpl; eauto.
Qed.

(** What a route of the gateway leaves behind, from what its block leaves
    behind. *)
Lemma route_ends_session {A : Type} (body : LangflowService -> M A) (f : A -> Json) :
  (forall self st,
      remote (snd (body self st)) = remote st
      /\ exists new, events (snd (body self st)) = events st ++ new) ->
  ends_session
    (Main.guarded
       (bind (LangflowService_new default_base_url)
          (fun service =>
             async_with service (fun service => bind (body service) (fun a => ret (f a)))))).
Proof.
  intros Hbody st. rewrite guarded_run, session_run. cbn [snd].
  rewrite bind_ret_run. cbn [snd].
  destruct (close_run (init default_base_url)
              (snd (body (init default_base_url) (with_new_service st))))
    as (_ & Hclosed & Hev & Hrm & _).
  destruct (Hbody (init default_base_url) (with_new_service st)) as (Hr & new & He).
  repeat split; [exact Hclosed | now rewrite Hrm, Hr |].
  exists new. now rewrite Hev, He.
Qed.

(** X19: the two execution routes never answer with an error: whatever the
    remote does, [POST /flows/{flow_id}/execute] returns the dumped response
    of [execute_flow] on a new default service, and [POST /test-flow] returns
    the fixed flow identifier with that response, also when the response
    reports a failure; the 503 and 500 handlers are never taken. *)
Theorem X19_execution_routes_always_return :
  forall (flow_id : string) (request : Main.ExecuteFlowRequest) (st : State),
    let rq := FlowExecutionRequest.new (Main.input_value request) None None
                (Some (Main.tweaks request)) in
    let service := init default_base_url in
    (exists r,
        fst (execute_flow' service flow_id rq (with_new_service st)) = inr r
        /\ fst (route_execute_flow flow_id request st)
           = inr (FlowExecutionResponse_model_dump r))
    /\ (exists r,
          fst (execute_flow' service Main.hardcoded_flow_id rq (with_new_service st))
          = inr r
          /\ fst (route_test_hardcoded_flow request st)
             = inr (JDict [("flow_id", JStr Main.hardcoded_flow_id);
                           ("execution_result", FlowExecutionResponse_model_dump r)])).
Proof.
  intros flow_id request st rq service. split.
  - destruct (execute_flow_returns service flow_id rq (with_new_service st)) as [r Hr].
    exists r. split; [exact Hr |].
    unfold Main.execute_flow. rewrite guarded_run, session_run. cbn [fst].
    rewrite bind_ret_run. cbn [fst]. fold rq service. rewrite Hr. reflexivity.
  - destruct (execute_flow_returns service Main.hardcoded_flow_id rq
                (with_new_service st)) as [r Hr].
    exists r. split; [exact Hr |].
    unfold Main.test_hardcoded_flow. rewrite guarded_run, session_run. cbn [fst].
    rewrite bind_ret_run. cbn [fst]. fold rq service. rewrite Hr. reflexivity.
Qed.

(** X20: the two listing routes answer from [get_flows] on a new default
    service: when it returns, [GET /flows] returns every flow, dumped, in
    the same order, and [GET /test-langflow] returns the status "success",
    the message "Successfully connected to Langflow. Found n flows.", the
    number n of flows, and the identifier and name of the first three flows
    at most, in their order; when it raises, both
    answer 503 with the text of the error after "Langflow service error: ";
    neither ever answers 500. *)
Theorem X20_listing_routes :
  forall st : State,
    let listing := fst (get_flows' (init default_base_url) (with_new_service st)) in
    (fst (route_get_flows st)
     = match listing with
       | inr flows => inr (JDict [("flows", JList (map FlowResponse_model_dump flows))])
       | inl e =>
           inl (Main.mkHTTPException 503 ("Langflow service error: " ++ str_exn e)%string)
       end)
    /\ (match listing with
        | inr flows =>
            let sample :=
              map (fun flow => JDict [("id", JStr (FlowResponse.id flow));
                                      ("name", JStr (FlowResponse.name flow))])
                (firstn 3 flows) in
            fst (route_test_langflow st)
            = inr (JDict [("status", JStr "success");
                          ("message",
                           JStr ("Successfully connected to Langflow. Found "
                                 ++ Py.str_int (Z.of_nat (List.length flows))
                                 ++ " flows.")%string);
                          ("flows_count", JInt (Z.of_nat (List.length flows)));
                          ("sample_flows", JList sample)])
            /\ List.length sample = Nat.min 3 (List.length flows)
        | inl e =>
            fst (route_test_langflow st)
            = inl (Main.mkHTTPException 503
                     ("Langflow service error: " ++ str_exn e)%string)
        end)
    /\ (forall detail,
          fst (route_get_flows st) <> inl (Main.mkHTTPException 500 detail)
          /\ fst (route_test_langflow st) <> inl (Main.mkHTTPException 500 detail)).
Proof.
  intros st listing.
  assert (Hflows : fst (route_get_flows st)
                   = answer match listing with
                            | inr flows =>
                                inr (JDict [("flows",
                                             JList (map FlowResponse_model_dump flows))])
                            | inl e => inl e
                            end).
  { unfold Main.get_flows. rewrite guarded_run, session_run. cbn [fst].
    rewrite bind_ret_run. reflexivity. }
  assert (Htest : fst (route_test_langflow st)
                  = answer match listing with
                           | inr flows =>
                               inr (JDict
                                      [("status", JStr "success");
                                       ("message",
                                        JStr ("Successfully connected to Langflow. Found "
                                              ++ Py.str_int (Z.of_nat (List.length flows))
                                              ++ " flows.")%string);
                                       ("flows_count", JInt (Z.of_nat (List.length flows)));
                                       ("sample_flows",
                                        JList (map (fun flow =>
                                                      JDict [("id", JStr (FlowResponse.id flow));
                                                             ("name", JStr (FlowResponse.name flow))])
                                                 (firstn 3 flows)))])
                           | inl e => inl e
                           end).
  { unfold Main.test_langflow. rewrite guarded_run, session_run. cbn [fst].
    rewrite bind_ret_run. reflexivity. }
  rewrite Hflows, Htest.
  destruct (get_flows_outcome (init default_base_url) (with_new_service st))
    as [[flows Hl] | [msg Hl]]; fold listing in Hl; rewrite Hl; cbn [answer str_exn].
  - repeat split; try discriminate.
    now rewrite length_map, length_firstn.
  - repeat split; discriminate.
Qed.

(** X21: every route that opens a session ends it: after [GET /flows],
    [GET /test-langflow], [POST /flows/{flow_id}/execute] and
    [POST /test-flow], on every way out, the service holds no open client,
    the remote is as it was and the history has only grown. *)
Theorem X21_routes_end_their_session :
  ends_session route_get_flows
  /\ ends_session route_test_langflow
  /\ (forall flow_id request, ends_session (route_execute_flow flow_id request))
  /\ (forall request, ends_session (route_test_hardcoded_flow request)).
Proof.
  split; [| split; [| split]].
  - apply (route_ends_session get_flows'). intros. apply get_flows_state.
  - apply (route_ends_session get_flows'). intros. apply get_flows_state.
  - intros flow_id request.
    apply (route_ends_session
             (fun service =>
                execute_flow' service flow_id
                  (FlowExecutionRequest.new (Main.input_value request) None None
                     (Some (Main.tweaks request))))).
    intros. apply execute_flow_state.
  - intros request.
    apply (route_ends_session
             (fun service =>
                execute_flow' service Main.hardcoded_flow_id
                  (FlowExecutionRequest.new (Main.input_value request) None None
                     (Some (Main.tweaks request))))).
    intros. apply execute_flow_state.
Qed.

End Gateway.

(** ** More runs of the model *)

Lemma X13_get_flows_request_failure_witness :
  fst (get_flows ascii_NFKC accept_bracketed_host strict_validate test_service
         (fresh (scripted [] (inl (ConnectError "refused")))))
  = inl (LangflowServiceError "Failed to make request after 4 attempts: refused").
Proof.
  pose (st := fresh (scripted [] (inl (ConnectError "refused")))).
  pose (u := "http://test-langflow:7860/api/v1/flows/"%string).
  assert (H := X13_get_flows_request_failure ascii_NFKC accept_bracketed_host
                 strict_validate test_service st
                 (snd (_make_request_with_retry test_service "GET" u 3 flows_kwargs st))
                 u
                 (LangflowServiceError
                    "Failed to make request after 4 attempts: refused")
                 eq_refl eq_refl).
  fold st. rewrite H. reflexivity.
Defined.

Lemma X14_get_flows_undecodable_body_witness :
  let page := Response.mk 200 "<html>" None (inl (ValueError "Expecting value")) in
  fst (get_flows ascii_NFKC accept_bracketed_host strict_validate test_service
         (fresh (scripted [] (inr page))))
  = inl (LangflowServiceError "Failed to fetch flows: Expecting value").
Proof.
  intro page.
  pose (st := fresh (scripted [] (inr page))).
  pose (u := "http://test-langflow:7860/api/v1/flows/"%string).
  assert (H := X14_get_flows_undecodable_body ascii_NFKC accept_bracketed_host
                 strict_validate test_service st
                 (snd (_make_request_with_retry test_service "GET" u 3 flows_kwargs st))
                 u page (ValueError "Expecting value") eq_refl eq_refl eq_refl).
  fold st. rewrite H. reflexivity.
Defined.

Lemma X15_get_flows_element_not_an_object_witness :
  exists msg,
    fst (get_flows ascii_NFKC accept_bracketed_host strict_validate test_service
           (answering (JList [valid_record; JInt 5])))
    = inl (LangflowServiceError ("Failed to fetch flows: " ++ msg)%string).
Proof.
  pose (body := JList [valid_record; JInt 5]).
  pose (u := "http://test-langflow:7860/api/v1/flows/"%string).
  destruct (X15_get_flows_element_not_an_object ascii_NFKC accept_bracketed_host
              strict_validate test_service (answering body)
              (snd (_make_request_with_retry test_service "GET" u 3 flows_kwargs
                      (answering body)))
              u (ok_response body) body [valid_record; JInt 5]
              eq_refl eq_refl eq_refl (or_introl eq_refl) eq_refl)
    as (msg & H).
  exists msg. fold body. rewrite H. reflexivity.
Defined.

Lemma X16_get_flows_request_witness :
  get_flows ascii_NFKC accept_bracketed_host strict_validate (init "http://[::1")
    (answering (JList []))
  = (inl (LangflowServiceError "Failed to fetch flows: Invalid IPv6 URL"),
     answering (JList [])).
Proof.
  destruct (X16_get_flows_request ascii_NFKC accept_bracketed_host strict_validate
              (init "http://[::1") (answering (JList []))) as (H & _).
  exact (H (ValueError "Invalid IPv6 URL") eq_refl).
Defined.

Lemma X17_execute_flow_success_witness :
  fst (execute_flow ascii_NFKC accept_bracketed_host test_service "flow-1"
         (FlowExecutionRequest.new "Test input" None None None)
         (answering (JDict [("result", JStr "Flow executed successfully")])))
  = inr (FlowExecutionResponse.mk true
           (JDict [("result", JStr "Flow executed successfully")]) None).
Proof.
  pose (body := JDict [("result", JStr "Flow executed successfully")]).
  pose (rq := FlowExecutionRequest.new "Test input" None None None).
  pose (u := "http://test-langflow:7860/api/v1/run/flow-1"%string).
  assert (H := X17_execute_flow_success ascii_NFKC accept_bracketed_host
                 test_service "flow-1" rq (answering body)
                 (snd (_make_request_with_retry test_service "POST" u 3
                         (run_kwargs rq) (answering body)))
                 u (ok_response body) body eq_refl eq_refl eq_refl).
  fold body rq. rewrite H. reflexivity.
Defined.

Lemma X18_execute_flow_undecodable_body_witness :
  let page := Response.mk 200 "<html>" None (inl (ValueError "Expecting value")) in
  fst (execute_flow ascii_NFKC accept_bracketed_host test_service "flow-1"
         (FlowExecutionRequest.new "Test input" None None None)
         (fresh (scripted [] (inr page))))
  = inr (FlowExecutionResponse.mk false JNull
           (Some "Unexpected error during flow execution: Expecting value")).
Proof.
  intro page.
  pose (st := fresh (scripted [] (inr page))).
  pose (rq := FlowExecutionRequest.new "Test input" None None None).
  pose (u := "http://test-langflow:7860/api/v1/run/flow-1"%string).
  assert (H := X18_execute_flow_undecodable_body ascii_NFKC accept_bracketed_host
                 test_service "flow-1" rq st
                 (snd (_make_request_with_retry test_service "POST" u 3
                         (run_kwargs rq) st))
                 u page (ValueError "Expecting value") eq_refl eq_refl eq_refl).
  fold st rq. rewrite H. reflexivity.
Defined.
